(** * get_abstracts.py: the abstract resolver, its resume step and its run loop

    A shallow embedding of [src/get_abstracts.py].  The pandas frame is a
    list of rows with a column list, the two CSV files are values of type
    [file], the network is an oracle ([world]) consulted at every blocking
    call, and Python's exceptions are the [Raise] results of a small
    state-and-exception monad [M]. *)

From Stdlib Require Import ZArith String Ascii DecimalString.
From stdpp Require Import gmap strings list fin_maps sorting.

Set Warnings "-register-all".
Local Open Scope string_scope.
Local Open Scope list_scope.
Local Open Scope nat_scope.

(** ** Python strings *)

Module Py.

(** [str.isspace] on the ASCII range: TAB..CR, FS..US and the blank. *)
Definition isspace (c : ascii) : bool :=
  let n := nat_of_ascii c in
  ((9 <=? n)%nat && (n <=? 13)%nat) || ((28 <=? n)%nat && (n <=? 32)%nat).

Fixpoint lstrip (s : string) : string :=
  match s with
  | EmptyString => EmptyString
  | String c s' => if isspace c then lstrip s' else s
  end.

Definition rstrip (s : string) : string := String.rev (lstrip (String.rev s)).

(** [s.strip()] *)
Definition strip (s : string) : string := rstrip (lstrip s).

Definition lower_char (c : ascii) : ascii :=
  let n := nat_of_ascii c in
  if ((65 <=? n)%nat && (n <=? 90)%nat) then ascii_of_nat (n + 32) else c.

(** [s.lower()] *)
Fixpoint lower (s : string) : string :=
  match s with
  | EmptyString => EmptyString
  | String c s' => String (lower_char c) (lower s')
  end.

(** [s.endswith(suffix)] *)
Definition endswith (s suffix : string) : bool :=
  String.prefix (String.rev suffix) (String.rev s).

(** [sub in s] *)
Fixpoint contains (sub s : string) : bool :=
  String.prefix sub s ||
  match s with
  | EmptyString => false
  | String _ s' => contains sub s'
  end.

(** Truth value of a string: [bool(s)]. *)
Definition nonempty (s : string) : bool :=
  match s with EmptyString => false | String _ _ => true end.

(** [s.replace('\n', ' ')] *)
Fixpoint replace_newlines (s : string) : string :=
  match s with
  | EmptyString => EmptyString
  | String c s' =>
      String (if Ascii.eqb c "010"%char then " "%char else c) (replace_newlines s')
  end.

(** [s[:n]] *)
Definition slice_to (n : nat) (s : string) : string := String.substring 0 n s.

(** Whitespace-separated tokens, as [re.findall(r"\S+", s)]. *)
Fixpoint split_go (cur : string) (s : string) : list string :=
  match s with
  | EmptyString => if nonempty cur then [String.rev cur] else []
  | String c s' =>
      if isspace c
      then (if nonempty cur then String.rev cur :: split_go EmptyString s'
            else split_go EmptyString s')
      else split_go (String c cur) s'
  end.

Definition split (s : string) : list string := split_go EmptyString s.

(** Truth value of an optional string: [None] and [""] are false. *)
Definition truthy (o : option string) : bool :=
  match o with Some s => nonempty s | None => false end.

End Py.

(** ** The parsed page, after BeautifulSoup

    [BeautifulSoup(response.content, 'html.parser')] is an external library;
    the page is taken already parsed, as a forest of text nodes and tags, and
    the queries below follow the library's documented behaviour on it. *)

Module Bs4.

Inductive node :=
| NavigableString (s : string)
| Tag (name : string) (attrs : list (string * string)) (contents : list node).

(** A tag together with its place in the document: the siblings after it,
    and the nodes that follow its parent in document order. *)
Record element := Element {
  el_name : string;
  el_attrs : list (string * string);
  el_contents : list node;
  el_next_siblings : list node;
  el_following : list node
}.

Definition in_names (names : list string) (n : string) : bool :=
  existsb (String.eqb n) names.

Fixpoint elements_of (n : node) (sibs after : list node) {struct n} : list element :=
  match n with
  | NavigableString _ => []
  | Tag t a cs =>
      Element t a cs sibs after ::
      (fix go (l : list node) : list element :=
         match l with
         | [] => []
         | c :: l' => elements_of c l' (sibs ++ after) ++ go l'
         end) cs
  end.

(** All tags of a forest in document order. *)
Fixpoint descendants (f : list node) (after : list node) : list element :=
  match f with
  | [] => []
  | n :: f' => elements_of n f' after ++ descendants f' after
  end.

(** [tag.get(key)] *)
Fixpoint get (key : string) (attrs : list (string * string)) : option string :=
  match attrs with
  | [] => None
  | (k, v) :: attrs' => if String.eqb k key then Some v else get key attrs'
  end.

(** [tag.string]: the single string below a tag, if there is exactly one. *)
Fixpoint string_of (n : node) : option string :=
  match n with
  | NavigableString s => Some s
  | Tag _ _ [c] => string_of c
  | Tag _ _ _ => None
  end.

Definition el_string (e : element) : option string :=
  match el_contents e with
  | [c] => string_of c
  | _ => None
  end.

Fixpoint strings (n : node) : list string :=
  match n with
  | NavigableString s => [s]
  | Tag _ _ cs =>
      (fix go (l : list node) : list string :=
         match l with
         | [] => []
         | c :: l' => strings c ++ go l'
         end) cs
  end.

Definition forest_strings (f : list node) : list string :=
  flat_map strings f.

(** [tag.get_text(strip=True)]: every string below the tag, stripped, the
    blank ones dropped, joined without a separator. *)
Definition get_text_strip (contents : list node) : string :=
  String.concat "" (List.filter Py.nonempty (List.map Py.strip (forest_strings contents))).

(** [soup.find(name, attrs={key: value})] *)
Definition find_attr (soup : list node) (name key value : string) : option element :=
  List.find (fun e => String.eqb (el_name e) name &&
                      match get key (el_attrs e) with
                      | Some v => String.eqb v value
                      | None => false
                      end)
            (descendants soup []).

(** [soup.find(names, string=pred)] *)
Definition find_string (soup : list node) (names : list string)
    (pred : option string -> bool) : option element :=
  List.find (fun e => in_names names (el_name e) && pred (el_string e))
            (descendants soup []).

(** [soup.find(class_=c)]: the class attribute is multi-valued. *)
Definition find_class (soup : list node) (c : string) : option element :=
  List.find (fun e => match get "class" (el_attrs e) with
                      | Some v => existsb (String.eqb c) (Py.split v)
                      | None => false
                      end)
            (descendants soup []).

(** [tag.find_next_sibling(name)] *)
Definition find_next_sibling (e : element) (name : string) : option (list node) :=
  match List.find (fun n => match n with
                            | Tag t _ _ => String.eqb t name
                            | NavigableString _ => false
                            end) (el_next_siblings e) with
  | Some (Tag _ _ cs) => Some cs
  | _ => None
  end.

(** [tag.find_next(names)]: the first matching tag parsed after the start
    of [tag], its own descendants included. *)
Definition find_next (e : element) (names : list string) : option (list node) :=
  match List.find (fun x => in_names names (el_name x))
          (descendants (el_contents e) [] ++
           descendants (el_next_siblings e ++ el_following e) []) with
  | Some x => Some (el_contents x)
  | None => None
  end.

End Bs4.

(** ** The frame: cells, rows, files *)

(** A cell of the frame.  [NA] stands for both [None] and [NaN]: the program
    only tells them apart from other values ([pd.isna], [pd.notna],
    [dropna], [fillna]). *)
Inductive cell :=
| NA
| Str (s : string)
| Int (z : Z).

#[global] Instance cell_eq_dec : EqDecision cell.
Proof. solve_decision. Defined.

Definition cell_encode (c : cell) : unit + (string + Z) :=
  match c with
  | NA => inl tt
  | Str s => inr (inl s)
  | Int z => inr (inr z)
  end.

Definition cell_decode (x : unit + (string + Z)) : cell :=
  match x with
  | inl _ => NA
  | inr (inl s) => Str s
  | inr (inr z) => Int z
  end.

#[global] Instance cell_countable : Countable cell.
Proof. refine (inj_countable' cell_encode cell_decode _). by intros []. Defined.

(** [pd.isna(c)] and [pd.notna(c)] *)
Definition isna (c : cell) : bool :=
  match c with NA => true | _ => false end.

Definition notna (c : cell) : bool := negb (isna c).

(** [str(c)] *)
Definition py_str (c : cell) : string :=
  match c with
  | NA => "nan"
  | Str s => s
  | Int z => NilZero.string_of_int (Z.to_int z)
  end.

(** [isinstance(c, str)] *)
Definition is_str (c : cell) : bool :=
  match c with Str _ => true | _ => false end.

(** A paper record: one row of the frame. *)
Record paper := Paper {
  Year : cell;
  Title : cell;
  Authors : cell;
  Link : cell;
  Abstract : cell
}.

Definition set_Abstract (a : cell) (r : paper) : paper :=
  {| Year := Year r; Title := Title r; Authors := Authors r; Link := Link r;
     Abstract := a |}.

(** The fields the resolver must leave alone. *)
Definition metadata (r : paper) : cell * cell * cell * cell :=
  (Year r, Title r, Authors r, Link r).

(** A [DataFrame]: its column labels and its rows.  The field of a row whose
    column is not listed is not part of the frame. *)
Record frame := Frame {
  columns : list string;
  rows : list paper
}.

Definition has_column (name : string) (f : frame) : bool :=
  existsb (String.eqb name) (columns f).

(** A path on disk: nothing there, something [pd.read_csv] rejects, or a
    table, named by a frame.  Where [read_csv] is given [Csv f], [f] is the
    frame pandas parses from the file; where [to_csv] has stored [Csv f],
    [f] is the frame that was written, and writing is taken to succeed.
    The two are not the same frame for the same file: what a later run
    parses from a table that was written is given by [read_back] below. *)
Inductive file :=
| Missing
| Unreadable
| Csv (f : frame).

Definition exists_file (p : file) : bool :=
  match p with Missing => false | _ => true end.

(** ** Exceptions *)

Inductive exn :=
| KeyboardInterrupt
| RateLimitException
| RequestException
| ReadError
| KeyError (key : string).

Definition is_KeyboardInterrupt (e : exn) : bool :=
  match e with KeyboardInterrupt => true | _ => false end.

Definition is_RateLimitException (e : exn) : bool :=
  match e with RateLimitException => true | _ => false end.

(** [isinstance(e, Exception)].  [KeyboardInterrupt] derives from
    [BaseException] only; the source declares
    [class RateLimitException(Exception)]. *)
Definition is_Exception (e : exn) : bool :=
  match e with KeyboardInterrupt => false | _ => true end.

(** ** The world outside the process *)

(** What [requests.get] does for one call. *)
Inductive http_result :=
| Response (status_code : Z) (content : list Bs4.node)
| ConnectionFailed
| Interrupted.

(** The oracle: the answer to the GET issued at a given tick, and whether
    the operator interrupts the sleep started at a given tick. *)
Record world := World {
  http : nat -> string -> http_result;
  sleep_interrupted : nat -> bool
}.

(** Lines printed on the console. *)
Inductive msg :=
| MsgInputNotFound
| MsgReading
| MsgFoundExisting
| MsgResumed (loaded : nat)
| MsgWarning (e : exn)
| MsgStarting (total : nat)
| MsgFetching (position total : nat) (title : string)
| MsgFound (chars : nat) (preview : string)
| MsgNotFound
| MsgProgressSaved
| MsgInterruptedByUser
| MsgRateLimit
| MsgError (e : exn)
| MsgDone.

(** ** The process state *)

(** [df] is the frame of [main]; [output_file] is what is stored under
    [OUTPUT_FILE].  [ticks], [http_log] and [fetch_log] are instrumentation:
    the number of blocking calls so far, the URLs requested, and the
    arguments [get_abstract] was called with, each with its row index. *)
Record machine := Machine {
  df : frame;
  output_file : file;
  console : list msg;
  ticks : nat;
  http_log : list string;
  fetch_log : list (nat * cell)
}.

Definition boot (out : file) : machine :=
  {| df := Frame [] []; output_file := out; console := []; ticks := 0;
     http_log := []; fetch_log := [] |}.

Definition with_df (f : frame) (m : machine) : machine :=
  {| df := f; output_file := output_file m; console := console m;
     ticks := ticks m; http_log := http_log m; fetch_log := fetch_log m |}.

Definition with_output (p : file) (m : machine) : machine :=
  {| df := df m; output_file := p; console := console m;
     ticks := ticks m; http_log := http_log m; fetch_log := fetch_log m |}.

Definition with_console (c : list msg) (m : machine) : machine :=
  {| df := df m; output_file := output_file m; console := c;
     ticks := ticks m; http_log := http_log m; fetch_log := fetch_log m |}.

Definition with_request (url : string) (m : machine) : machine :=
  {| df := df m; output_file := output_file m; console := console m;
     ticks := S (ticks m); http_log := http_log m ++ [url];
     fetch_log := fetch_log m |}.

Definition with_tick (m : machine) : machine :=
  {| df := df m; output_file := output_file m; console := console m;
     ticks := S (ticks m); http_log := http_log m; fetch_log := fetch_log m |}.

Definition with_fetch (index : nat) (link : cell) (m : machine) : machine :=
  {| df := df m; output_file := output_file m; console := console m;
     ticks := ticks m; http_log := http_log m;
     fetch_log := fetch_log m ++ [(index, link)] |}.

(** ** State and exceptions *)

Inductive result (A : Type) :=
| Ok (a : A)
| Raise (e : exn).

Arguments Ok {A} a.
Arguments Raise {A} e.

Definition M (A : Type) : Type := machine -> result A * machine.

#[global] Instance M_ret : MRet M := fun A (a : A) m => (Ok a, m).

#[global] Instance M_bind : MBind M := fun A B (k : A -> M B) (c : M A) m =>
  match c m with
  | (Ok a, m') => k a m'
  | (Raise e, m') => (Raise e, m')
  end.

Definition raise {A : Type} (e : exn) : M A := fun m => (Raise e, m).

(** [try: body  except C1: h1  except C2: h2 ...]: the first clause whose
    class the exception is an instance of handles it. *)
Fixpoint dispatch {A : Type} (clauses : list ((exn -> bool) * (exn -> M A)))
    (e : exn) : M A :=
  match clauses with
  | [] => raise e
  | (cls, handler) :: rest => if cls e then handler e else dispatch rest e
  end.

Definition try_except {A : Type} (body : M A)
    (clauses : list ((exn -> bool) * (exn -> M A))) : M A :=
  fun m =>
    match body m with
    | (Ok a, m') => (Ok a, m')
    | (Raise e, m') => dispatch clauses e m'
    end.

(** [try: body  finally: final] *)
Definition try_finally {A : Type} (body : M A) (final : M unit) : M A :=
  fun m =>
    match body m with
    | (r, m') =>
        match final m' with
        | (Ok _, m'') => (r, m'')
        | (Raise e, m'') => (Raise e, m'')
        end
    end.

(** [for x in l: body x] *)
Fixpoint for_each {X : Type} (body : X -> M unit) (l : list X) : M unit :=
  match l with
  | [] => mret tt
  | x :: l' => body x ;; for_each body l'
  end.

Definition get_df : M frame := fun m => (Ok (df m), m).
Definition put_df (f : frame) : M unit := fun m => (Ok tt, with_df f m).
Definition print (line : msg) : M unit :=
  fun m => (Ok tt, with_console (console m ++ [line]) m).

(** ** [get_abstract] (lines 23-81) *)

(** [requests.get(url, headers=..., timeout=15, allow_redirects=True)]: one
    blocking call.  The identity string drawn from [USER_AGENTS] does not
    reach the result and is left out. *)
Definition requests_get (w : world) (url : string) : M (Z * list Bs4.node) :=
  fun m =>
    match http w (ticks m) url with
    | Response sc body => (Ok (sc, body), with_request url m)
    | ConnectionFailed => (Raise RequestException, with_request url m)
    | Interrupted => (Raise KeyboardInterrupt, with_request url m)
    end.

(** Strategy 3 (lines 72-77): the first element of class [abstract]. *)
Definition strategy3 (soup : list Bs4.node) : option string :=
  match Bs4.find_class soup "abstract" with
  | Some abstract_elem => Some (Bs4.get_text_strip (Bs4.el_contents abstract_elem))
  | None => None
  end.

(** The filter [lambda t: t and 'Abstract' in t] *)
Definition mentions_Abstract (t : option string) : bool :=
  match t with
  | Some s => Py.nonempty s && Py.contains "Abstract" s
  | None => false
  end.

(** Strategy 2 (lines 53-70): a heading, then the text after it. *)
Definition strategy2 (soup : list Bs4.node) : option string :=
  match Bs4.find_string soup ["h3"; "h4"; "h2"] mentions_Abstract with
  | Some header =>
      match Bs4.find_next_sibling header "p" with
      | Some next_p => Some (Bs4.get_text_strip next_p)
      | None =>
          match Bs4.find_next_sibling header "div" with
          | Some next_div => Some (Bs4.get_text_strip next_div)
          | None =>
              match Bs4.find_next header ["p"; "div"] with
              | Some next_elem => Some (Bs4.get_text_strip next_elem)
              | None => strategy3 soup
              end
          end
      end
  | None => strategy3 soup
  end.

(** Strategy 1 (lines 47-51): the [citation_abstract] meta tag. *)
Definition strategy1 (soup : list Bs4.node) : option string :=
  match Bs4.find_attr soup "meta" "name" "citation_abstract" with
  | Some meta_desc =>
      match Bs4.get "content" (Bs4.el_attrs meta_desc) with
      | Some c => if Py.nonempty c then Some (Py.strip c) else strategy2 soup
      | None => strategy2 soup
      end
  | None => strategy2 soup
  end.

(** The body of the [try] (lines 33-77). *)
Definition get_abstract_try (w : world) (url : string) : M (option string) :=
  response ← requests_get w url;
  if (response.1 =? 429)%Z then raise RateLimitException
  else if negb (response.1 =? 200)%Z then mret None
  else mret (strategy1 response.2).

(** [get_abstract(url)]: the guard of line 29, then the [try] with its
    [except Exception: return None]. *)
Definition get_abstract (w : world) (url : cell) : M (option string) :=
  match url with
  | Str u =>
      if (String.length u <? 5)%nat || Py.endswith (Py.lower u) ".pdf"
      then mret None
      else try_except (get_abstract_try w u)
             [(is_Exception, fun _ => mret None)]
  | _ => mret None
  end.

(** ** [main] (lines 83-142) *)

Definition INTERVAL : nat := 20.

(** [pd.read_csv(path)]: the frame parsed from the file. *)
Definition read_csv (p : file) : M frame :=
  match p with
  | Csv f => mret f
  | _ => raise ReadError
  end.

(** [df.to_csv(OUTPUT_FILE, index=False)]: the file holds the frame as
    it was written.  What [read_csv] parses from that file in a later run
    is [read_back] of the frame, not the frame. *)
Definition to_csv : M unit := fun m => (Ok tt, with_output (Csv (df m)) m).

(** Lines 92-93: [df['Abstract'] = None] when the column is not there. *)
Definition init_Abstract (f : frame) : frame :=
  if has_column "Abstract" f then f
  else {| columns := columns f ++ ["Abstract"];
          rows := set_Abstract NA <$> rows f |}.

(** [dropna(subset=['Link', 'Abstract'])] *)
Definition dropna (l : list paper) : list paper :=
  List.filter (fun r => notna (Link r) && notna (Abstract r)) l.

(** [set_index('Link')['Abstract'].to_dict()]: a later row overrides an
    earlier one with the same link. *)
Definition to_dict (l : list paper) : gmap cell cell :=
  list_to_map (reverse ((fun r => (Link r, Abstract r)) <$> l)).

(** Line 101 *)
Definition existing_map (df_existing : frame) : gmap cell cell :=
  to_dict (dropna (rows df_existing)).

(** Line 102, on one row: [map] then [fillna]. *)
Definition merge_row (existing : gmap cell cell) (r : paper) : paper :=
  match existing !! Link r with
  | Some a => set_Abstract a r
  | None => r
  end.

(** Line 102 *)
Definition merge (existing : gmap cell cell) (f : frame) : M frame :=
  if has_column "Link" f
  then mret {| columns := columns f; rows := merge_row existing <$> rows f |}
  else raise (KeyError "Link").

(** [df['Abstract'].notna().sum()] *)
Definition count_loaded (f : frame) : nat :=
  length (List.filter (fun r => notna (Abstract r)) (rows f)).

(** Lines 96-105 *)
Definition resume : M unit :=
  fun m =>
    (if exists_file (output_file m) then
       print MsgFoundExisting ;;
       try_except
         (df_existing ← read_csv (output_file m);
          if has_column "Abstract" df_existing && has_column "Link" df_existing
          then
            f ← get_df;
            f' ← merge (existing_map df_existing) f;
            put_df f' ;;
            print (MsgResumed (count_loaded f'))
          else mret tt)
         [(is_Exception, fun e => print (MsgWarning e))]
     else mret tt) m.

(** [row[name]] on a row of [df.iterrows()] *)
Definition row_get (name : string) (field : paper -> cell) (row : paper) : M cell :=
  fun m =>
    if has_column name (df m) then (Ok (field row), m)
    else (Raise (KeyError name), m).

(** Line 112: the record already has an abstract. *)
Definition has_abstract (c : cell) : bool :=
  notna c && Py.nonempty (Py.strip (py_str c)).

(** Line 116: the link is missing or the sentinel. *)
Definition unusable (link : cell) : bool :=
  isna link || bool_decide (link = Str "N/A").

(** [df.at[index, 'Abstract'] = abstract] *)
Definition at_set_Abstract (index : nat) (abstract : string) : M unit :=
  fun m =>
    (Ok tt,
     with_df {| columns := columns (df m);
                rows := alter (set_Abstract (Str abstract)) index (rows (df m)) |} m).

(** Line 123 *)
Definition preview (abstract : string) : string :=
  if (100 <? String.length abstract)%nat
  then Py.replace_newlines (Py.slice_to 100 abstract) +:+ "..."
  else Py.replace_newlines abstract.

(** [time.sleep(random.uniform(2.0, 5.0))] *)
Definition sleep (w : world) : M unit :=
  fun m =>
    if sleep_interrupted w (ticks m) then (Raise KeyboardInterrupt, with_tick m)
    else (Ok tt, with_tick m).

Definition trace_fetch (index : nat) (link : cell) : M unit :=
  fun m => (Ok tt, with_fetch index link m).

(** The body of the [for] (lines 112-133); [mret tt] at the two guards is
    [continue]. *)
Definition loop_body (w : world) (total_papers : nat) (it : nat * paper) : M unit :=
  let index := it.1 in
  let row := it.2 in
  known ← row_get "Abstract" Abstract row;
  if has_abstract known then mret tt
  else
    link ← row_get "Link" Link row;
    if unusable link then mret tt
    else
      title ← row_get "Title" Title row;
      print (MsgFetching (index + 1) total_papers (Py.slice_to 50 (py_str title))) ;;
      trace_fetch index link ;;
      abstract ← get_abstract w link;
      (if Py.truthy abstract
       then
         at_set_Abstract index (default "" abstract) ;;
         print (MsgFound (String.length (default "" abstract))
                         (preview (default "" abstract)))
       else print MsgNotFound) ;;
      (if ((index + 1) mod INTERVAL =? 0)%nat
       then to_csv ;; print MsgProgressSaved
       else mret tt) ;;
      sleep w.

Fixpoint enumerate {A : Type} (k : nat) (l : list A) : list (nat * A) :=
  match l with
  | [] => []
  | x :: l' => (k, x) :: enumerate (S k) l'
  end.

(** [df.iterrows()] *)
Definition iterrows (f : frame) : list (nat * paper) := enumerate 0 (rows f).

(** Lines 111-133: the loop alone. *)
Definition run_loop (w : world) (total_papers : nat) : M unit :=
  f ← get_df;
  for_each (loop_body w total_papers) (iterrows f).

(** The three [except] clauses of lines 134-139. *)
Definition handlers : list ((exn -> bool) * (exn -> M unit)) :=
  [(is_KeyboardInterrupt, fun _ => print MsgInterruptedByUser);
   (is_RateLimitException, fun _ => print MsgRateLimit);
   (is_Exception, fun e => print (MsgError e))].

(** Lines 140-142: the [finally] clause. *)
Definition finally_save : M unit := to_csv ;; print MsgDone.

(** Lines 110-142: what leaves the [try] body with result [r] goes through
    the handlers and then the [finally]. *)
Definition guarded (body : M unit) : M unit :=
  try_finally (try_except body handlers) finally_save.

(** Lines 107-142 *)
Definition process (w : world) : M unit :=
  f ← get_df;
  let total_papers := length (rows f) in
  print (MsgStarting total_papers) ;;
  guarded (run_loop w total_papers).

(** Lines 88-105: load the input, add the column, merge the checkpoint. *)
Definition load_and_merge (input_file : file) : M unit :=
  print MsgReading ;;
  f ← read_csv input_file;
  put_df (init_Abstract f) ;;
  resume.

Definition main (w : world) (input_file : file) : M unit :=
  if negb (exists_file input_file) then print MsgInputNotFound
  else load_and_merge input_file ;; process w.

(** One run of the program on an input file and whatever is stored under
    [OUTPUT_FILE]. *)
Definition run (w : world) (input_file out : file) : result unit * machine :=
  main w input_file (boot out).

(** ** Vocabulary of the statements *)

(** The state in which [get_abstract] is entered for row [index]: the
    progress line is printed and the call is traced. *)
Definition before_fetch (total index : nat) (row : paper) (m : machine) : machine :=
  with_fetch index (Link row)
    (with_console
       (console m ++
        [MsgFetching (index + 1) total (Py.slice_to 50 (py_str (Title row)))]) m).

(** Lines 121-130 as a state change: record the abstract if there is one,
    then save if the row position is a multiple of [INTERVAL]. *)
Definition after_fetch (index : nat) (abstract : option string) (m : machine) : machine :=
  let m3 :=
    if Py.truthy abstract
    then with_console
           (console m ++
            [MsgFound (String.length (default "" abstract))
                      (preview (default "" abstract))])
           (with_df {| columns := columns (df m);
                       rows := alter (set_Abstract (Str (default "" abstract)))
                                 index (rows (df m)) |} m)
    else with_console (console m ++ [MsgNotFound]) m in
  if ((index + 1) mod INTERVAL =? 0)%nat
  then with_console (console m3 ++ [MsgProgressSaved]) (with_output (Csv (df m3)) m3)
  else m3.

(** Row [j] of the loop's snapshot [l] is one the loop fetches for. *)
Definition attempted (l : list (nat * paper)) (j : nat) (link : cell) : Prop :=
  ∃ row, (j, row) ∈ l ∧ link = Link row ∧
         has_abstract (Abstract row) = false ∧ unusable (Link row) = false.

(** What may happen to row [j] while the loop runs over [l]: nothing, or its
    abstract is set to a non-empty text fetched for it. *)
Definition row_evolves (l : list (nat * paper)) (j : nat) (r0 r' : paper) : Prop :=
  r' = r0 ∨
  ∃ a, r' = set_Abstract (Str a) r0 ∧ Py.nonempty a = true ∧ ∃ c, attempted l j c.

(** The footprint of the loop over [l] between two states. *)
Record evolves (l : list (nat * paper)) (m m' : machine) : Prop := {
  ev_columns : columns (df m') = columns (df m);
  ev_length : length (rows (df m')) = length (rows (df m));
  ev_rows : ∀ j r0 r', rows (df m) !! j = Some r0 → rows (df m') !! j = Some r' →
                       row_evolves l j r0 r';
  ev_fetch : ∃ new, fetch_log m' = fetch_log m ++ new ∧
                    Forall (fun e => attempted l e.1 e.2) new
}.


(** Links identify records: no two rows share a link that is present. *)
Definition unique_links (l : list paper) : Prop :=
  NoDup (List.filter notna (Link <$> l)).

(** The frame [main] holds when the loop starts, in closed form: the input
    with its [Abstract] column, merged with the checkpoint when the
    checkpoint is a table with both columns and the input has links. *)
Definition merged (f : frame) (out : file) : frame :=
  match out with
  | Csv g =>
      if has_column "Abstract" g && has_column "Link" g
         && has_column "Link" (init_Abstract f)
      then {| columns := columns (init_Abstract f);
              rows := merge_row (existing_map g) <$> rows (init_Abstract f) |}
      else init_Abstract f
  | _ => init_Abstract f
  end.

(** *** The extraction order as the specification words it

    Each heuristic on its own, and "the first hit" of a list of attempts. *)

Fixpoint first_hit {A : Type} (attempts : list (option A)) : option A :=
  match attempts with
  | [] => None
  | Some x :: _ => Some x
  | None :: rest => first_hit rest
  end.

(** A structured metadata field carrying the abstract. *)
Definition meta_hit (soup : list Bs4.node) : option string :=
  md ← Bs4.find_attr soup "meta" "name" "citation_abstract";
  c ← Bs4.get "content" (Bs4.el_attrs md);
  if Py.nonempty c then Some (Py.strip c) else None.

(** A heading containing "Abstract", followed by the next sibling paragraph,
    else the next sibling container, else the nearest following one. *)
Definition heading_hit (soup : list Bs4.node) : option string :=
  header ← Bs4.find_string soup ["h3"; "h4"; "h2"] mentions_Abstract;
  Bs4.get_text_strip <$>
    first_hit [Bs4.find_next_sibling header "p";
               Bs4.find_next_sibling header "div";
               Bs4.find_next header ["p"; "div"]].

(** Any element tagged with the class. *)
Definition class_hit (soup : list Bs4.node) : option string :=
  e ← Bs4.find_class soup "abstract";
  Some (Bs4.get_text_strip (Bs4.el_contents e)).

(** The guard of line 29 on a string. *)
Definition skipped_url (u : string) : bool :=
  (String.length u <? 5) || Py.endswith (Py.lower u) ".pdf".

(** *** Sample data *)

Module Sample.

(** A landing page with the abstract in a meta tag and, with another
    text, in an element of class [abstract]. *)
Definition page_both : list Bs4.node :=
  [Bs4.Tag "html" []
     [Bs4.Tag "head" []
        [Bs4.Tag "meta" [("name", "citation_abstract");
                         ("content", " We study checkpoints. ")] []];
      Bs4.Tag "body" []
        [Bs4.Tag "div" [("class", "col abstract")]
           [Bs4.NavigableString "A different teaser."]]]].

(** A page with a heading and a paragraph only. *)
Definition page_heading (text : string) : list Bs4.node :=
  [Bs4.Tag "body" []
     [Bs4.Tag "h4" [] [Bs4.NavigableString "Abstract"];
      Bs4.Tag "p" [] [Bs4.NavigableString text]]].

Definition link_of (k : nat) : string :=
  "https://papers.example/" +:+ NilZero.string_of_uint (Nat.to_uint k).

Definition row_of (k : nat) : paper :=
  {| Year := Int 2015; Title := Str "A paper"; Authors := Str "A. Author";
     Link := Str (link_of k); Abstract := NA |}.

Definition input_columns : list string := ["Year"; "Title"; "Authors"; "Link"].

(** Every page is there and nobody interrupts. *)
Definition calm : world :=
  {| http := fun _ u => Response 200 (page_heading u);
     sleep_interrupted := fun _ => false |}.

(** The first request is answered 429, later ones are served. *)
Definition limited : world :=
  {| http := fun t u => if t =? 0 then Response 429 [] else Response 200 (page_heading u);
     sleep_interrupted := fun _ => false |}.

(** Nothing is served at all. *)
Definition offline : world :=
  {| http := fun _ _ => ConnectionFailed; sleep_interrupted := fun _ => false |}.

Definition two_papers : frame :=
  {| columns := input_columns; rows := [row_of 1; row_of 2] |}.

(** A corpus of three links A, B, C and a checkpoint that resolved A, B. *)
Definition abc : frame :=
  {| columns := input_columns; rows := [row_of 1; row_of 2; row_of 3] |}.

Definition abc_checkpoint : frame :=
  {| columns := input_columns ++ ["Abstract"];
     rows := [set_Abstract (Str "Abstract of A") (row_of 1);
              set_Abstract (Str "Abstract of B") (row_of 2);
              row_of 3] |}.

(** Twenty-one rows whose twentieth has the sentinel for a link. *)
Definition sentinel_at_20 : frame :=
  {| columns := input_columns ++ ["Abstract"];
     rows := (row_of <$> seq 0 19) ++
             [{| Year := Int 2015; Title := Str "No link"; Authors := Str "A. Author";
                 Link := Str "N/A"; Abstract := NA |};
              row_of 20] |}.

Definition twenty : frame :=
  {| columns := input_columns ++ ["Abstract"]; rows := row_of <$> seq 0 20 |}.

(** A table that is not a checkpoint: it has no [Abstract] column. *)
Definition no_abstract_column : frame :=
  {| columns := input_columns; rows := [row_of 1] |}.

Definition start (f : frame) (out : file) : machine :=
  with_df f (boot out).

(** The operator interrupts the first sleep. *)
Definition impatient : world :=
  {| http := fun _ u => Response 200 (page_heading u);
     sleep_interrupted := fun t => t =? 1 |}.

(** The operator interrupts the first request. *)
Definition interrupted_request : world :=
  {| http := fun _ _ => Interrupted; sleep_interrupted := fun _ => false |}.

(** Every page is there; the operator cuts the sleep that follows the
    twentieth request (requests and sleeps alternate, from tick 0). *)
Definition cut_after_save : world :=
  {| http := fun _ u => Response 200 (page_heading u);
     sleep_interrupted := fun t => t =? 39 |}.



(** An input without a [Title] column. *)
Definition untitled : frame :=
  {| columns := ["Year"; "Authors"; "Link"]; rows := [row_of 1; row_of 2] |}.

(** A corpus with nothing left to do: one record has its abstract, one has
    the sentinel for a link and one has no link. *)
Definition settled : frame :=
  {| columns := input_columns ++ ["Abstract"];
     rows := [set_Abstract (Str "Abstract of A") (row_of 1);
              {| Year := Int 2015; Title := Str "No link"; Authors := Str "A. Author";
                 Link := Str "N/A"; Abstract := NA |};
              {| Year := Int 2016; Title := Str "Lost link"; Authors := NA;
                 Link := NA; Abstract := NA |}] |}.

End Sample.


(** The checkpoint is unambiguous: records that enter the dictionary under
    the same link carry the same abstract.  Without this no merge can copy
    the abstract of each of them into the record with that link. *)
Definition one_abstract_per_link (l : list paper) : Prop :=
  ∀ r r', r ∈ dropna l → r' ∈ dropna l → Link r = Link r' →
          Abstract r = Abstract r'.

(** Two states that differ at most in what was printed and in what is
    stored under [OUTPUT_FILE]. *)
Definition same_work (m m' : machine) : Prop :=
  df m = df m' ∧ ticks m = ticks m' ∧ http_log m = http_log m' ∧
  fetch_log m = fetch_log m'.

(** *** Vocabulary of the further properties *)

(** The string has a character that is not white space. *)
Fixpoint has_nonspace (s : string) : bool :=
  match s with
  | EmptyString => false
  | String c s' => negb (Py.isspace c) || has_nonspace s'
  end.

(** The requests that a sequence of calls of [get_abstract] gives rise to:
    one for each argument that passes the guard of line 29. *)
Definition requests_of (calls : list (nat * cell)) : list string :=
  flat_map (fun e => match e.2 with
                     | Str u => if skipped_url u then [] else [u]
                     | _ => []
                     end) calls.

(** What [get_abstract] returns for a link when the answer to a request
    depends on the URL alone. *)
Definition fetch_result (net : string -> http_result) (link : cell) : option string :=
  match link with
  | Str u =>
      if skipped_url u then None
      else match net u with
           | Response sc soup => if (sc =? 200)%Z then strategy1 soup else None
           | _ => None
           end
  | _ => None
  end.

(** One record resolved on its own: left alone when it has an abstract or
    no usable link, given the fetched text when there is one. *)
Definition resolve (net : string -> http_result) (r : paper) : paper :=
  if has_abstract (Abstract r) || unusable (Link r) then r
  else match fetch_result net (Link r) with
       | Some a => if Py.nonempty a then set_Abstract (Str a) r else r
       | None => r
       end.

(** Between two states no row has changed except by becoming resolved. *)
Definition settles (m m' : machine) : Prop :=
  length (rows (df m')) = length (rows (df m)) ∧
  ∀ j r0 r', rows (df m) !! j = Some r0 → rows (df m') !! j = Some r' →
             r' = r0 ∨ has_abstract (Abstract r') = true.

(** The requests made between two states are those of the calls made. *)
Definition accounts (m m' : machine) : Prop :=
  ∃ new, fetch_log m' = fetch_log m ++ new ∧
         http_log m' = http_log m ++ requests_of new.

(** Nothing but the console and the stored file differs. *)
Definition idle (m m' : machine) : Prop :=
  df m' = df m ∧ fetch_log m' = fetch_log m ∧ http_log m' = http_log m.

(** ** The stored table, read again

    A run that resumes parses with [pd.read_csv(OUTPUT_FILE)] (line 98) the
    file that [df.to_csv(OUTPUT_FILE, index=False)] (lines 129, 142) wrote.
    With the defaults the program leaves in place, pandas reads the texts of
    its list of missing-value markers as NaN and infers the type of each
    column from the texts in it, so the frame parsed is not always the frame
    written.  [read_back] gives the frame parsed where the documented
    behaviour of pandas determines it within this model of cells, and
    [None] elsewhere. *)

















(** * Properties of the resolver *)

(** ** Basic facts *)

Lemma elem_of_enumerate {A : Type} (l : list A) (k j : nat) (x : A) :
  (j, x) ∈ enumerate k l ↔ k ≤ j ∧ l !! (j - k) = Some x.
Proof.
  revert k. induction l as [|y l IH]; intros k; simpl.
  - split; [by intros ?%elem_of_nil | by intros [_ ?]].
  - rewrite elem_of_cons, IH. split.
    + intros [[= -> ->]|[Hle Hl]].
      * split; [lia|]. by rewrite Nat.sub_diag.
      * split; [lia|]. by replace (j - k) with (S (j - S k)) by lia.
    + intros [Hle Hl]. destruct (decide (j = k)) as [->|Hne].
      * left. rewrite Nat.sub_diag in Hl. simpl in Hl. congruence.
      * right. split; [lia|]. by replace (j - k) with (S (j - S k)) in Hl by lia.
Qed.

Lemma elem_of_iterrows (f : frame) (j : nat) (r : paper) :
  (j, r) ∈ iterrows f ↔ rows f !! j = Some r.
Proof.
  unfold iterrows. rewrite elem_of_enumerate, Nat.sub_0_r. intuition lia.
Qed.

Lemma get_abstract_cases (w : world) (url : cell) (m : machine) :
  get_abstract w url m = (Ok None, m) ∨
  ∃ u, url = Str u ∧
    ((get_abstract w url m).1 = Raise KeyboardInterrupt ∨
     ∃ a, (get_abstract w url m).1 = Ok a) ∧
    (get_abstract w url m).2 = with_request u m.
Proof.
  destruct url as [|u|z]; simpl; auto.
  destruct (_ || _); auto.
  right. exists u. split; [done|].
  unfold try_except, get_abstract_try, mbind, M_bind, requests_get.
  destruct (http w (ticks m) u) as [sc body| |]; simpl; eauto.
  destruct (sc =? 429)%Z; simpl; eauto.
  destruct (negb _); simpl; eauto.
Qed.

Lemma get_abstract_df (w : world) (url : cell) (m : machine) :
  df (get_abstract w url m).2 = df m ∧
  fetch_log (get_abstract w url m).2 = fetch_log m ∧
  output_file (get_abstract w url m).2 = output_file m ∧
  console (get_abstract w url m).2 = console m.
Proof.
  destruct (get_abstract_cases w url m) as [->|(u & _ & _ & ->)]; done.
Qed.


(** The loop body, with the monad unfolded. *)
Lemma loop_body_eq (w : world) (total i : nat) (row : paper) (m : machine) :
  loop_body w total (i, row) m =
  if negb (has_column "Abstract" (df m)) then (Raise (KeyError "Abstract"), m)
  else if has_abstract (Abstract row) then (Ok tt, m)
  else if negb (has_column "Link" (df m)) then (Raise (KeyError "Link"), m)
  else if unusable (Link row) then (Ok tt, m)
  else if negb (has_column "Title" (df m)) then (Raise (KeyError "Title"), m)
  else
    match get_abstract w (Link row) (before_fetch total i row m) with
    | (Raise e, m2) => (Raise e, m2)
    | (Ok a, m2) => sleep w (after_fetch i a m2)
    end.
Proof.
  unfold loop_body. cbn [fst snd].
  unfold mbind, M_bind, row_get.
  destruct (has_column "Abstract" (df m)); [|done]. cbn [negb].
  destruct (has_abstract _); [done|].
  destruct (has_column "Link" (df m)); [|done]. cbn [negb].
  destruct (unusable _); [done|].
  destruct (has_column "Title" (df m)); [|done]. cbn [negb].
  unfold print at 1. unfold trace_fetch. fold (before_fetch total i row m).
  destruct (get_abstract _ _ _) as [[a|e] m2]; [|done].
  unfold after_fetch.
  destruct (Py.truthy a); destruct (_ =? 0)%nat; reflexivity.
Qed.

(** ** The footprint of the loop *)

Lemma evolves_same (l : list (nat * paper)) (m m' : machine) :
  df m' = df m → fetch_log m' = fetch_log m → evolves l m m'.
Proof.
  intros Hdf Hlog. split.
  - by rewrite Hdf.
  - by rewrite Hdf.
  - rewrite Hdf. intros j r0 r' H0 H'. left. congruence.
  - exists []. by rewrite app_nil_r.
Qed.

#[global] Instance evolves_refl (l : list (nat * paper)) : Reflexive (evolves l).
Proof. intros m. by apply evolves_same. Qed.

#[global] Instance evolves_trans (l : list (nat * paper)) : Transitive (evolves l).
Proof.
  intros m1 m2 m3 [Hc1 Hl1 Hr1 (n1 & Hf1 & Hn1)] [Hc2 Hl2 Hr2 (n2 & Hf2 & Hn2)].
  split.
  - congruence.
  - congruence.
  - intros j r0 r'' H0 H''.
    destruct (rows (df m2) !! j) as [r'|] eqn:H'.
    + specialize (Hr1 j r0 r' H0 H'). specialize (Hr2 j r' r'' H' H'').
      destruct Hr2 as [->|(a & -> & Ha & Hat)]; [done|].
      right. exists a. split_and!; [|done|done].
      destruct Hr1 as [->|(a1 & -> & _)]; done.
    + apply lookup_ge_None in H'. apply lookup_lt_Some in H0. lia.
  - exists (n1 ++ n2). split.
    + by rewrite Hf2, Hf1, (assoc_L (++)).
    + by apply Forall_app.
Qed.

Lemma evolves_mono (l l' : list (nat * paper)) (m m' : machine) :
  l ⊆ l' → evolves l m m' → evolves l' m m'.
Proof.
  intros Hsub [Hc Hl Hr (n & Hf & Hn)].
  assert (Hat : ∀ j c, attempted l j c → attempted l' j c).
  { intros j c (row & Hin & Hrest). exists row. split; [by apply Hsub|done]. }
  split; [done|done| |].
  - intros j r0 r' H0 H'. destruct (Hr j r0 r' H0 H') as [->|(a & -> & Ha & c & Hc')].
    + by left.
    + right. exists a. split_and!; [done|done|]. exists c. by apply Hat.
  - exists n. split; [done|]. eapply Forall_impl; [done|]. intros [j c]. apply Hat.
Qed.

Lemma sleep_frame (w : world) (m : machine) :
  df (sleep w m).2 = df m ∧ fetch_log (sleep w m).2 = fetch_log m ∧
  output_file (sleep w m).2 = output_file m ∧ console (sleep w m).2 = console m.
Proof. unfold sleep. by destruct (sleep_interrupted _ _). Qed.

Lemma after_fetch_fetch_log (i : nat) (a : option string) (m : machine) :
  fetch_log (after_fetch i a m) = fetch_log m.
Proof. unfold after_fetch. by destruct (Py.truthy a), (_ =? 0). Qed.

Lemma after_fetch_df (i : nat) (a : option string) (m : machine) :
  df (after_fetch i a m) =
  if Py.truthy a
  then {| columns := columns (df m);
          rows := alter (set_Abstract (Str (default "" a))) i (rows (df m)) |}
  else df m.
Proof. unfold after_fetch. by destruct (Py.truthy a), (_ =? 0). Qed.

Lemma after_fetch_evolves (l : list (nat * paper)) (i : nat) (c : cell)
    (a : option string) (m : machine) :
  attempted l i c → evolves l m (after_fetch i a m).
Proof.
  intros Hat. split.
  - rewrite after_fetch_df. by destruct (Py.truthy a).
  - rewrite after_fetch_df. destruct (Py.truthy a); [|done]. simpl.
    by rewrite length_alter.
  - rewrite after_fetch_df. intros j r0 r'.
    destruct (Py.truthy a) eqn:Ha; [|left; congruence].
    simpl. intros H0. destruct (decide (i = j)) as [->|Hne].
    + rewrite list_lookup_alter_eq, H0. intros [= <-].
      right. destruct a as [a|]; [|done]. exists a. eauto.
    + rewrite list_lookup_alter_ne by done. left. congruence.
  - exists []. by rewrite after_fetch_fetch_log, app_nil_r.
Qed.

Lemma loop_body_evolves (w : world) (total : nat) (l : list (nat * paper))
    (i : nat) (row : paper) (m : machine) :
  (i, row) ∈ l → evolves l m (loop_body w total (i, row) m).2.
Proof.
  intros Hin. rewrite loop_body_eq.
  destruct (negb (has_column "Abstract" _)); [done|].
  destruct (has_abstract _) eqn:Hres; [done|].
  destruct (negb (has_column "Link" _)); [done|].
  destruct (unusable _) eqn:Hun; [done|].
  destruct (negb (has_column "Title" _)); [done|].
  assert (Hat : attempted l i (Link row)) by (by exists row).
  assert (H1 : evolves l m (before_fetch total i row m)).
  { split; [done|done| |].
    { intros j r0 r' H0 H'. left. simpl in H'. congruence. }
    exists [(i, Link row)]. split; [done|]. by constructor. }
  pose proof (get_abstract_df w (Link row) (before_fetch total i row m))
    as (Hdf & Hlog & _).
  destruct (get_abstract _ _ _) as [[a|e] m2]; simpl in *.
  - etrans; [exact H1|]. etrans; [by apply evolves_same|].
    etrans; [by eapply after_fetch_evolves|].
    apply evolves_same; apply sleep_frame.
  - etrans; [exact H1|]. by apply evolves_same.
Qed.

Lemma for_each_rel {X : Type} (R : relation machine) (body : X → M unit) (l : list X) :
  (∀ m, R m m) → (∀ m1 m2 m3, R m1 m2 → R m2 m3 → R m1 m3) →
  (∀ x m, x ∈ l → R m (body x m).2) → ∀ m, R m (for_each body l m).2.
Proof.
  intros Hrefl Htrans.
  induction l as [|x l IH]; intros Hbody m; simpl; [done|].
  unfold mbind, M_bind.
  pose proof (Hbody x m ltac:(left)) as Hx.
  destruct (body x m) as [[[]|e] m1]; simpl in *; [|done].
  eapply Htrans; [exact Hx|]. apply IH. intros y m' Hy. apply Hbody. by right.
Qed.

Lemma for_each_evolves (w : world) (total : nat) (l : list (nat * paper)) (m : machine) :
  evolves l m (for_each (loop_body w total) l m).2.
Proof.
  apply (for_each_rel (evolves l)).
  { apply evolves_refl. }
  { apply evolves_trans. }
  intros [i row] m' Hin.
  by apply loop_body_evolves.
Qed.

Lemma evolves_metadata (l : list (nat * paper)) (m m' : machine) :
  evolves l m m' → metadata <$> rows (df m') = metadata <$> rows (df m).
Proof.
  intros [_ Hlen Hrows _]. apply list_eq. intros j.
  rewrite !list_lookup_fmap.
  destruct (rows (df m) !! j) as [r0|] eqn:H0, (rows (df m') !! j) as [r'|] eqn:H';
    simpl; try done.
  - f_equal. by destruct (Hrows j r0 r' H0 H') as [->|(a & -> & _)].
  - apply lookup_ge_None in H'. apply lookup_lt_Some in H0. lia.
  - apply lookup_ge_None in H0. apply lookup_lt_Some in H'. lia.
Qed.

(** ** The [try] statement of [main] *)

Lemma guarded_spec (body : M unit) (m : machine) :
  (guarded body m).1 = Ok tt ∧
  df (guarded body m).2 = df (body m).2 ∧
  output_file (guarded body m).2 = Csv (df (body m).2) ∧
  fetch_log (guarded body m).2 = fetch_log (body m).2 ∧
  http_log (guarded body m).2 = http_log (body m).2.
Proof.
  unfold guarded, try_finally, try_except.
  destruct (body m) as [[[]|e] mb]; [done|].
  by destruct e.
Qed.

Lemma run_loop_eq (w : world) (total : nat) (m : machine) :
  run_loop w total m = for_each (loop_body w total) (iterrows (df m)) m.
Proof. done. Qed.

Lemma process_eq (w : world) (m : machine) :
  process w m =
  guarded (run_loop w (length (rows (df m))))
    (with_console (console m ++ [MsgStarting (length (rows (df m)))]) m).
Proof. done. Qed.

Lemma process_evolves (w : world) (m : machine) :
  evolves (iterrows (df m)) m (process w m).2.
Proof.
  rewrite process_eq.
  set (m0 := with_console _ m).
  pose proof (guarded_spec (run_loop w (length (rows (df m)))) m0)
    as (_ & Hdf & _ & Hlog & _).
  etrans; [|by apply evolves_same].
  etrans; [apply (evolves_same _ m m0); done|].
  rewrite run_loop_eq. apply for_each_evolves.
Qed.

Lemma process_saved (w : world) (m : machine) :
  (process w m).1 = Ok tt ∧
  output_file (process w m).2 = Csv (df (process w m).2).
Proof.
  rewrite process_eq.
  set (m0 := with_console _ m).
  pose proof (guarded_spec (run_loop w (length (rows (df m)))) m0)
    as (Hok & Hdf & Hout & _).
  split; [done|]. by rewrite Hout, Hdf.
Qed.

(** ** A world with nothing new *)



(** ** Loading and resuming *)

Lemma load_and_merge_spec (f : frame) (m : machine) :
  (load_and_merge (Csv f) m).1 = Ok tt ∧
  df (load_and_merge (Csv f) m).2 = merged f (output_file m) ∧
  output_file (load_and_merge (Csv f) m).2 = output_file m ∧
  fetch_log (load_and_merge (Csv f) m).2 = fetch_log m ∧
  ticks (load_and_merge (Csv f) m).2 = ticks m ∧
  http_log (load_and_merge (Csv f) m).2 = http_log m.
Proof.
  unfold load_and_merge, resume, merged, mbind, M_bind, print, read_csv, put_df,
    try_except, get_df, merge, mret, M_ret.
  cbn -[init_Abstract existing_map has_column].
  destruct (output_file m) as [| |g] eqn:Hout; cbn -[init_Abstract existing_map has_column];
    [done|done|].
  destruct (has_column "Abstract" g && has_column "Link" g);
    cbn -[init_Abstract existing_map has_column]; [|done].
  destruct (has_column "Link" (init_Abstract f));
    cbn -[init_Abstract existing_map has_column]; done.
Qed.

Lemma init_Abstract_has_column (f : frame) :
  has_column "Abstract" (init_Abstract f) = true.
Proof.
  unfold init_Abstract. destruct (has_column "Abstract" f) eqn:H; [done|].
  unfold has_column. simpl. rewrite existsb_app. simpl.
  by rewrite orb_true_r.
Qed.

Lemma init_Abstract_metadata (f : frame) :
  metadata <$> rows (init_Abstract f) = metadata <$> rows f.
Proof.
  unfold init_Abstract. destruct (has_column "Abstract" f); [done|]. simpl.
  rewrite <- list_fmap_compose. by apply list_fmap_ext.
Qed.

Lemma merge_row_metadata (existing : gmap cell cell) (r : paper) :
  metadata (merge_row existing r) = metadata r.
Proof. unfold merge_row. by destruct (existing !! Link r). Qed.

Lemma merged_has_column (f : frame) (out : file) :
  has_column "Abstract" (merged f out) = true.
Proof.
  pose proof (init_Abstract_has_column f) as H.
  unfold merged. destruct out as [| |g]; try done.
  by destruct (_ && _).
Qed.

Lemma merged_metadata (f : frame) (out : file) :
  metadata <$> rows (merged f out) = metadata <$> rows f.
Proof.
  rewrite <- (init_Abstract_metadata f).
  unfold merged. destruct out as [| |g]; try done.
  destruct (_ && _); [|done]. simpl.
  rewrite <- list_fmap_compose. apply list_fmap_ext. intros _ r _.
  apply merge_row_metadata.
Qed.

Lemma run_eq (w : world) (f : frame) (out : file) :
  run w (Csv f) out = process w (load_and_merge (Csv f) (boot out)).2.
Proof.
  unfold run, main. cbn [exists_file negb]. unfold mbind at 1, M_bind at 1.
  destruct (load_and_merge_spec f (boot out)) as (Hok & _).
  by destruct (load_and_merge (Csv f) (boot out)) as [[[]|e] m1].
Qed.

(** ** The guard of [get_abstract] *)

Lemma lower_rev_app (s acc : string) :
  Py.lower (String.rev_app s acc) = String.rev_app (Py.lower s) (Py.lower acc).
Proof.
  revert acc. induction s as [|c s IH]; intros acc; simpl; [done|].
  by rewrite IH.
Qed.

Lemma prefix_lower (p s : string) :
  String.prefix p s = true → String.prefix (Py.lower p) (Py.lower s) = true.
Proof.
  revert s. induction p as [|a p IH]; intros [|b s]; simpl; try done.
  destruct (ascii_dec a b) as [->|Hne]; [|done].
  intros H. destruct (ascii_dec _ _); [by apply IH|done].
Qed.

Lemma endswith_lower (u suffix : string) :
  Py.endswith u suffix = true → Py.endswith (Py.lower u) (Py.lower suffix) = true.
Proof.
  unfold Py.endswith, String.rev. intros H.
  apply prefix_lower in H. by rewrite !lower_rev_app in H.
Qed.

(** C8.  A link that is not a string, or is shorter than five characters, or
    ends with ".pdf" (in any letter case, the test being made on the
    lower-cased link) makes [get_abstract] return [None] in the state it was
    called in: nothing is requested from the network. *)
Theorem get_abstract_skips_without_request (w : world) (url : cell) (m : machine) :
  (is_str url = false ∨
   ∃ u, url = Str u ∧
        (String.length u < 5 ∨ Py.endswith u ".pdf" = true ∨
         Py.endswith (Py.lower u) ".pdf" = true)) →
  get_abstract w url m = (Ok None, m) ∧
  http_log (get_abstract w url m).2 = http_log m.
Proof.
  intros [Hns|(u & -> & Hu)].
  - by destruct url.
  - simpl. assert (skipped_url u = true) as Hs.
    { unfold skipped_url. destruct Hu as [Hlen|[Hpdf|Hpdf]].
      + apply Nat.ltb_lt in Hlen. by rewrite Hlen.
      + apply endswith_lower in Hpdf.
        change (Py.lower ".pdf") with ".pdf" in Hpdf.
        rewrite Hpdf. apply Bool.orb_true_r.
      + rewrite Hpdf. apply Bool.orb_true_r. }
    unfold skipped_url in Hs. by rewrite Hs.
Qed.

Lemma get_abstract_skips_witness :
  get_abstract Sample.calm (Str "https://papers.example/Paper.PDF") (boot Missing)
    = (Ok None, boot Missing) ∧
  http_log (get_abstract Sample.calm (Str "https://papers.example/Paper.PDF")
              (boot Missing)).2 = [].
Proof.
  apply (get_abstract_skips_without_request Sample.calm
           (Str "https://papers.example/Paper.PDF") (boot Missing)).
  right. exists "https://papers.example/Paper.PDF".
  split; [reflexivity|]. right. right. reflexivity.
Defined.

(** ** The order of the heuristics *)

Lemma strategy1_first_hit (soup : list Bs4.node) :
  strategy1 soup = first_hit [meta_hit soup; heading_hit soup; class_hit soup].
Proof.
  assert (H3 : strategy3 soup = first_hit [class_hit soup]).
  { unfold strategy3, class_hit. by destruct (Bs4.find_class soup "abstract"). }
  assert (H2 : strategy2 soup = first_hit [heading_hit soup; class_hit soup]).
  { unfold strategy2, heading_hit. rewrite H3.
    destruct (Bs4.find_string _ _ _) as [header|]; simpl; [|done].
    destruct (Bs4.find_next_sibling header "p"); simpl; [done|].
    destruct (Bs4.find_next_sibling header "div"); simpl; [done|].
    by destruct (Bs4.find_next header _). }
  unfold strategy1, meta_hit. rewrite H2.
  destruct (Bs4.find_attr _ _ _ _) as [md|]; simpl; [|done].
  destruct (Bs4.get "content" _) as [c|]; simpl; [|done].
  by destruct (Py.nonempty c).
Qed.

Lemma get_abstract_200 (w : world) (u : string) (m : machine) (soup : list Bs4.node) :
  skipped_url u = false → http w (ticks m) u = Response 200 soup →
  get_abstract w (Str u) m = (Ok (strategy1 soup), with_request u m).
Proof.
  unfold skipped_url. intros Hs Hh. simpl. rewrite Hs.
  unfold try_except, get_abstract_try, mbind, M_bind, requests_get.
  by rewrite Hh.
Qed.

(** C6.  On a status-200 answer the result of [get_abstract] is the first
    hit among the metadata field, the heading with the text after it, and
    the element of class "abstract", tried in this order; in particular a
    page with a non-empty metadata field and a class-tagged element of
    another text yields the (trimmed) text of the metadata field. *)
Theorem extraction_priority (w : world) (u : string) (m : machine)
    (soup : list Bs4.node) :
  skipped_url u = false → http w (ticks m) u = Response 200 soup →
  (get_abstract w (Str u) m).1
    = Ok (first_hit [meta_hit soup; heading_hit soup; class_hit soup]) ∧
  ∀ md c e,
    Bs4.find_attr soup "meta" "name" "citation_abstract" = Some md →
    Bs4.get "content" (Bs4.el_attrs md) = Some c →
    Py.nonempty c = true →
    Bs4.find_class soup "abstract" = Some e →
    Bs4.get_text_strip (Bs4.el_contents e) ≠ Py.strip c →
    (get_abstract w (Str u) m).1 = Ok (Some (Py.strip c)).
Proof.
  intros Hs Hh. rewrite (get_abstract_200 w u m soup Hs Hh). simpl. split.
  - by rewrite strategy1_first_hit.
  - intros md c e Hmd Hc Hne _ _. unfold strategy1. by rewrite Hmd, Hc, Hne.
Qed.

Lemma extraction_priority_witness :
  (get_abstract {| http := fun _ _ => Response 200 Sample.page_both;
                   sleep_interrupted := fun _ => false |}
     (Str (Sample.link_of 1)) (boot Missing)).1
  = Ok (Some "We study checkpoints.").
Proof.
  pose proof (extraction_priority
                {| http := fun _ _ => Response 200 Sample.page_both;
                   sleep_interrupted := fun _ => false |}
                (Sample.link_of 1) (boot Missing) Sample.page_both
                eq_refl eq_refl) as [_ H].
  apply (H (Bs4.Element "meta"
              [("name", "citation_abstract"); ("content", " We study checkpoints. ")]
              [] [] [Bs4.Tag "body" []
                       [Bs4.Tag "div" [("class", "col abstract")]
                          [Bs4.NavigableString "A different teaser."]]])
           " We study checkpoints. "
           (Bs4.Element "div" [("class", "col abstract")]
              [Bs4.NavigableString "A different teaser."] [] [])).
  - reflexivity.
  - reflexivity.
  - reflexivity.
  - reflexivity.
  - vm_compute. discriminate.
Defined.

(** ** The rate-limit signal *)

(** Whatever the network answers, no [RateLimitException] leaves
    [get_abstract]: the [except Exception] of line 79 encloses the [raise]
    of line 40, and the class derives from [Exception]. *)
Lemma get_abstract_never_rate_limited (w : world) (url : cell) (m : machine) :
  (get_abstract w url m).1 ≠ Raise RateLimitException.
Proof.
  destruct (get_abstract_cases w url m) as [->|(u & _ & [->|[a ->]] & _)]; done.
Qed.

Lemma get_abstract_429 (w : world) (u : string) (m : machine) (body : list Bs4.node) :
  skipped_url u = false → http w (ticks m) u = Response 429 body →
  get_abstract w (Str u) m = (Ok None, with_request u m).
Proof.
  unfold skipped_url. intros Hs Hh. simpl. rewrite Hs.
  unfold try_except, get_abstract_try, mbind, M_bind, requests_get.
  by rewrite Hh.
Qed.

(** C1, on the code.  Two papers, the first request answered 429:
    [get_abstract] returns [None] for the first paper, the loop goes on to
    fetch the second one, the rate-limit line is never printed, and the run
    ends as a normal completion. *)
Theorem rate_limit_signal_is_swallowed :
  http Sample.limited 0 (Sample.link_of 1) = Response 429 [] ∧
  (get_abstract Sample.limited (Str (Sample.link_of 1)) (boot Missing)).1 = Ok None ∧
  (run Sample.limited (Csv Sample.two_papers) Missing).1 = Ok tt ∧
  fetch_log (run Sample.limited (Csv Sample.two_papers) Missing).2
    = [(0, Str (Sample.link_of 1)); (1, Str (Sample.link_of 2))] ∧
  console (run Sample.limited (Csv Sample.two_papers) Missing).2
    = [MsgReading; MsgStarting 2;
       MsgFetching 1 2 "A paper"; MsgNotFound;
       MsgFetching 2 2 "A paper"; MsgFound 24 "https://papers.example/2";
       MsgDone] ∧
  Abstract <$> rows (df (run Sample.limited (Csv Sample.two_papers) Missing).2)
    = [NA; Str "https://papers.example/2"].
Proof. repeat split; vm_compute; reflexivity. Qed.

(** ** Persistence on exit *)

(** C4.  However the body of the [try] ends (normally, or by raising
    [KeyboardInterrupt], [RateLimitException] or any other exception), the
    handlers and the [finally] clause leave the frame as the body left it
    and store exactly that frame under [OUTPUT_FILE]; a whole run on a
    readable input therefore ends with the stored table equal to the frame
    in memory, with an [Abstract] column and the records of the input. *)
Theorem persisted_on_every_exit :
  (∀ (body : M unit) (m : machine),
     (guarded body m).1 = Ok tt ∧
     df (guarded body m).2 = df (body m).2 ∧
     output_file (guarded body m).2 = Csv (df (body m).2)) ∧
  (∀ (w : world) (f : frame) (out : file),
     (run w (Csv f) out).1 = Ok tt ∧
     output_file (run w (Csv f) out).2 = Csv (df (run w (Csv f) out).2) ∧
     has_column "Abstract" (df (run w (Csv f) out).2) = true ∧
     metadata <$> rows (df (run w (Csv f) out).2) = metadata <$> rows f).
Proof.
  split.
  - intros body m. destruct (guarded_spec body m) as (? & ? & ? & _). done.
  - intros w f out. rewrite run_eq.
    destruct (load_and_merge_spec f (boot out)) as (_ & Hdf & _).
    set (m1 := (load_and_merge (Csv f) (boot out)).2) in *.
    destruct (process_saved w m1) as [Hok Hout].
    pose proof (process_evolves w m1) as Hev.
    split_and!; [done|done| |].
    + unfold has_column. rewrite (ev_columns _ _ _ Hev), Hdf.
      apply merged_has_column.
    + rewrite (evolves_metadata _ _ _ Hev), Hdf. apply merged_metadata.
Qed.

(** The exits the loop takes on small runs: the operator interrupts the
    sleep after the first record, or the first request, or the input has no
    [Title] column.  Each time the last thing done is the save. *)
Example interrupted_sleep_is_saved :
  console (run Sample.impatient (Csv Sample.two_papers) Missing).2
    = [MsgReading; MsgStarting 2; MsgFetching 1 2 "A paper";
       MsgFound 24 "https://papers.example/1"; MsgInterruptedByUser; MsgDone] ∧
  Abstract <$> rows (df (run Sample.impatient (Csv Sample.two_papers) Missing).2)
    = [Str "https://papers.example/1"; NA] ∧
  output_file (run Sample.impatient (Csv Sample.two_papers) Missing).2
    = Csv (df (run Sample.impatient (Csv Sample.two_papers) Missing).2).
Proof. repeat split; vm_compute; reflexivity. Qed.

Example interrupted_request_is_saved :
  console (run Sample.interrupted_request (Csv Sample.two_papers) Missing).2
    = [MsgReading; MsgStarting 2; MsgFetching 1 2 "A paper";
       MsgInterruptedByUser; MsgDone] ∧
  output_file (run Sample.interrupted_request (Csv Sample.two_papers) Missing).2
    = Csv (df (run Sample.interrupted_request (Csv Sample.two_papers) Missing).2).
Proof. repeat split; vm_compute; reflexivity. Qed.

Example failed_run_is_saved :
  console (run Sample.calm (Csv Sample.untitled) Missing).2
    = [MsgReading; MsgStarting 2; MsgError (KeyError "Title"); MsgDone] ∧
  output_file (run Sample.calm (Csv Sample.untitled) Missing).2
    = Csv (df (run Sample.calm (Csv Sample.untitled) Missing).2).
Proof. repeat split; vm_compute; reflexivity. Qed.

(** ** The frame of the loop *)

(** C10.  The part of the program from the start of the loop to its exit
    (lines 107-142) leaves the columns and, row by row, the Year, Title,
    Authors and Link of every record as they were after load-and-merge; the
    same holds at every point where the loop may stop. *)
Theorem loop_changes_abstract_only (w : world) (m : machine) :
  columns (df (process w m).2) = columns (df m) ∧
  metadata <$> rows (df (process w m).2) = metadata <$> rows (df m) ∧
  ∀ (total : nat) (l : list (nat * paper)),
    metadata <$> rows (df (for_each (loop_body w total) l m).2)
      = metadata <$> rows (df m).
Proof.
  pose proof (process_evolves w m) as Hev. split_and!.
  - apply (ev_columns _ _ _ Hev).
  - apply (evolves_metadata _ _ _ Hev).
  - intros total l. apply (evolves_metadata l). apply for_each_evolves.
Qed.

(** ** Links that are never fetched *)

Lemma unusable_false (c : cell) :
  unusable c = false → c ≠ NA ∧ c ≠ Str "N/A".
Proof.
  unfold unusable. intros [Hna Hs]%Bool.orb_false_iff.
  apply bool_decide_eq_false in Hs. split; [by intros ->|done].
Qed.

Lemma unusable_true (c : cell) :
  c = NA ∨ c = Str "N/A" → unusable c = true.
Proof. by intros [->| ->]. Qed.

(** C7.  A record whose link is missing or is the sentinel "N/A" is never
    the subject of a call of [get_abstract], no call ever receives a missing
    link or the sentinel, and the record leaves the run as it entered it. *)
Theorem unusable_link_never_fetched (w : world) (m : machine) (i : nat) (r : paper) :
  rows (df m) !! i = Some r →
  Link r = NA ∨ Link r = Str "N/A" →
  fetch_log m = [] →
  (∀ j c, (j, c) ∈ fetch_log (process w m).2 → j ≠ i ∧ c ≠ NA ∧ c ≠ Str "N/A") ∧
  rows (df (process w m).2) !! i = Some r.
Proof.
  intros Hr Hlink%unusable_true Hlog.
  destruct (process_evolves w m) as [_ Hlen Hrows (new & Hnew & Hall)].
  assert (Hno : ∀ c, ¬ attempted (iterrows (df m)) i c).
  { intros c (row & Hin%elem_of_iterrows & _ & _ & Hus). congruence. }
  split.
  - intros j c Hjc. rewrite Hnew, Hlog in Hjc. simpl in Hjc.
    rewrite Forall_forall in Hall. specialize (Hall _ Hjc). simpl in Hall.
    split.
    + intros ->. by apply (Hno c).
    + destruct Hall as (row & _ & -> & _ & Hus). by apply unusable_false.
  - destruct (rows (df (process w m).2) !! i) as [r'|] eqn:Hr'.
    + destruct (Hrows i r r' Hr Hr') as [->|(a & _ & _ & c & Hc)]; [done|].
      by destruct (Hno c).
    + apply lookup_ge_None in Hr'. apply lookup_lt_Some in Hr. lia.
Qed.

Lemma unusable_link_never_fetched_witness :
  (∀ j c, (j, c) ∈ fetch_log
            (process Sample.calm (Sample.start Sample.sentinel_at_20 Missing)).2 →
          j ≠ 19 ∧ c ≠ NA ∧ c ≠ Str "N/A") ∧
  rows (df (process Sample.calm (Sample.start Sample.sentinel_at_20 Missing)).2) !! 19
  = Some {| Year := Int 2015; Title := Str "No link"; Authors := Str "A. Author";
            Link := Str "N/A"; Abstract := NA |}.
Proof.
  apply (unusable_link_never_fetched Sample.calm
           (Sample.start Sample.sentinel_at_20 Missing) 19).
  - reflexivity.
  - right. reflexivity.
  - reflexivity.
Defined.

(** ** The cadence of the checkpoints *)

Lemma for_each_app {X : Type} (body : X → M unit) (l1 l2 : list X) (m : machine) :
  for_each body (l1 ++ l2) m =
  match for_each body l1 m with
  | (Ok _, m1) => for_each body l2 m1
  | (Raise e, m1) => (Raise e, m1)
  end.
Proof.
  revert m. induction l1 as [|x l1 IH]; intros m; simpl; [done|].
  unfold mbind, M_bind. destruct (body x m) as [[[]|e] m1]; [apply IH|done].
Qed.

Lemma after_fetch_saved (i : nat) (a : option string) (m : machine) :
  (i + 1) mod INTERVAL = 0 →
  output_file (after_fetch i a m) = Csv (df (after_fetch i a m)).
Proof.
  intros Hmod. unfold after_fetch. rewrite Hmod. simpl.
  by destruct (Py.truthy a).
Qed.

(** Inside the loop nothing is saved for a row that is skipped or whose
    position is not a multiple of [INTERVAL]. *)
Lemma no_checkpoint_elsewhere (w : world) (total index : nat) (row : paper) (m : machine) :
  (index + 1) mod INTERVAL ≠ 0 ∨ has_abstract (Abstract row) = true ∨
  unusable (Link row) = true →
  output_file (loop_body w total (index, row) m).2 = output_file m.
Proof.
  intros Hcase. rewrite loop_body_eq.
  destruct (negb (has_column "Abstract" _)); [done|].
  destruct (has_abstract _) eqn:Hres; [done|].
  destruct (negb (has_column "Link" _)); [done|].
  destruct (unusable _) eqn:Hun; [done|].
  destruct (negb (has_column "Title" _)); [done|].
  destruct Hcase as [Hmod|[?|?]]; [|done|done].
  apply Nat.eqb_neq in Hmod.
  pose proof (get_abstract_df w (Link row) (before_fetch total index row m))
    as (_ & _ & Hout & _).
  destruct (get_abstract _ _ _) as [[a|e] m2]; cbn [fst snd] in *; [|done].
  destruct (sleep_frame w (after_fetch index a m2)) as (_ & _ & -> & _).
  unfold after_fetch. rewrite Hmod.
  by destruct (Py.truthy a).
Qed.

Lemma get_abstract_interrupted (w : world) (url : cell) (m : machine) (e : exn) :
  (get_abstract w url m).1 = Raise e →
  ∃ u, url = Str u ∧ http w (ticks m) u = Interrupted.
Proof.
  destruct url as [|u|z]; simpl; [done| |done].
  destruct (_ || _); [done|].
  unfold try_except, get_abstract_try, mbind, M_bind, requests_get.
  destruct (http w (ticks m) u) as [sc body| |] eqn:Hh; simpl.
  - destruct (sc =? 429)%Z; simpl; [done|]. by destruct (negb _).
  - done.
  - intros _. by exists u.
Qed.

(** C2, as the code has it.  The save inside the loop is tied to the row
    position.  When the loop reaches a row that is fetched for (it has no
    abstract and a usable link, the frame has the columns the loop reads,
    and the request is not interrupted) and whose 1-based position is a
    multiple of 20, the frame is stored before the sleep that ends the
    iteration begins: [get_abstract] returns, and the state in which
    [time.sleep] is then entered already has the stored table equal to the
    frame; so has the state the iteration ends in, whether that sleep runs
    to its end or is cut by the operator. *)
Theorem checkpoint_at_multiples_of_interval (w : world) (total : nat)
    (l : list (nat * paper)) (index : nat) (row : paper) (m : machine) :
  (for_each (loop_body w total) l m).1 = Ok tt →
  has_column "Abstract" (df (for_each (loop_body w total) l m).2) = true →
  has_column "Link" (df (for_each (loop_body w total) l m).2) = true →
  has_column "Title" (df (for_each (loop_body w total) l m).2) = true →
  has_abstract (Abstract row) = false →
  unusable (Link row) = false →
  (index + 1) mod INTERVAL = 0 →
  (∀ u, Link row = Str u →
        http w (ticks (for_each (loop_body w total) l m).2) u ≠ Interrupted) →
  (∃ a m2,
     get_abstract w (Link row)
       (before_fetch total index row (for_each (loop_body w total) l m).2)
       = (Ok a, m2) ∧
     loop_body w total (index, row) (for_each (loop_body w total) l m).2
       = sleep w (after_fetch index a m2) ∧
     output_file (after_fetch index a m2) = Csv (df (after_fetch index a m2))) ∧
  output_file (for_each (loop_body w total) (l ++ [(index, row)]) m).2
    = Csv (df (for_each (loop_body w total) (l ++ [(index, row)]) m).2) ∧
  ((for_each (loop_body w total) (l ++ [(index, row)]) m).1 = Ok tt ∨
   (for_each (loop_body w total) (l ++ [(index, row)]) m).1 = Raise KeyboardInterrupt).
Proof.
  rewrite for_each_app.
  destruct (for_each (loop_body w total) l m) as [[[]|e] m1]; [|done].
  cbn [fst snd]. intros _ Ha Hl Ht Hres Hun Hmod Hreq.
  assert (for_each (loop_body w total) [(index, row)] m1
          = match loop_body w total (index, row) m1 with
            | (Ok _, m') => (Ok tt, m')
            | (Raise e, m') => (Raise e, m')
            end) as ->.
  { simpl. unfold mbind, M_bind. by destruct (loop_body _ _ _ _) as [[[]|e] m']. }
  rewrite loop_body_eq, Ha, Hl, Ht, Hres, Hun. cbn [negb].
  pose proof (get_abstract_interrupted w (Link row) (before_fetch total index row m1))
    as Hint.
  destruct (get_abstract _ _ _) as [[a|e] m2]; cbn [fst] in Hint.
  2:{ destruct (Hint e eq_refl) as (u & Hu & Hi). by destruct (Hreq u Hu). }
  pose proof (after_fetch_saved index a m2 Hmod) as Hsaved.
  split; [by exists a, m2|].
  unfold sleep. destruct (sleep_interrupted w _); cbn [fst snd]; auto.
Qed.

Lemma checkpoint_at_multiples_of_interval_witness :
  (∃ a m2,
     get_abstract Sample.cut_after_save (Link (Sample.row_of 19))
       (before_fetch 20 19 (Sample.row_of 19)
          (for_each (loop_body Sample.cut_after_save 20)
             (enumerate 0 (Sample.row_of <$> seq 0 19))
             (Sample.start Sample.twenty Missing)).2)
       = (Ok a, m2) ∧
     loop_body Sample.cut_after_save 20 (19, Sample.row_of 19)
       (for_each (loop_body Sample.cut_after_save 20)
          (enumerate 0 (Sample.row_of <$> seq 0 19))
          (Sample.start Sample.twenty Missing)).2
       = sleep Sample.cut_after_save (after_fetch 19 a m2) ∧
     output_file (after_fetch 19 a m2) = Csv (df (after_fetch 19 a m2))) ∧
  output_file
    (for_each (loop_body Sample.cut_after_save 20)
       (enumerate 0 (Sample.row_of <$> seq 0 19) ++ [(19, Sample.row_of 19)])
       (Sample.start Sample.twenty Missing)).2
  = Csv (df (for_each (loop_body Sample.cut_after_save 20)
               (enumerate 0 (Sample.row_of <$> seq 0 19) ++ [(19, Sample.row_of 19)])
               (Sample.start Sample.twenty Missing)).2) ∧
  ((for_each (loop_body Sample.cut_after_save 20)
      (enumerate 0 (Sample.row_of <$> seq 0 19) ++ [(19, Sample.row_of 19)])
      (Sample.start Sample.twenty Missing)).1 = Ok tt ∨
   (for_each (loop_body Sample.cut_after_save 20)
      (enumerate 0 (Sample.row_of <$> seq 0 19) ++ [(19, Sample.row_of 19)])
      (Sample.start Sample.twenty Missing)).1 = Raise KeyboardInterrupt).
Proof.
  apply (checkpoint_at_multiples_of_interval Sample.cut_after_save 20
           (enumerate 0 (Sample.row_of <$> seq 0 19)) 19 (Sample.row_of 19)
           (Sample.start Sample.twenty Missing)).
  - vm_compute. reflexivity.
  - vm_compute. reflexivity.
  - vm_compute. reflexivity.
  - vm_compute. reflexivity.
  - reflexivity.
  - reflexivity.
  - reflexivity.
  - intros u _. discriminate.
Defined.

(** The sleep that follows the save of row 20 is cut: the iteration ends
    with the operator's interrupt, and the twenty abstracts are stored. *)
Example save_precedes_the_sleep :
  (for_each (loop_body Sample.cut_after_save 20) (iterrows Sample.twenty)
     (Sample.start Sample.twenty Missing)).1 = Raise KeyboardInterrupt ∧
  output_file (for_each (loop_body Sample.cut_after_save 20) (iterrows Sample.twenty)
                 (Sample.start Sample.twenty Missing)).2
    = Csv (df (for_each (loop_body Sample.cut_after_save 20) (iterrows Sample.twenty)
                 (Sample.start Sample.twenty Missing)).2) ∧
  length (List.filter (fun r => has_abstract (Abstract r))
            (rows (df (for_each (loop_body Sample.cut_after_save 20)
                         (iterrows Sample.twenty)
                         (Sample.start Sample.twenty Missing)).2))) = 20.
Proof. split; [|split]; vm_compute; reflexivity. Qed.

(** C2 as stated fails.  Twenty-one rows, the twentieth with the sentinel
    for a link: the loop fetches for twenty records and resolves them all,
    and when it is through nothing has been stored. *)
Lemma checkpoint_cadence_counterexample :
  (run_loop Sample.calm 21 (Sample.start Sample.sentinel_at_20 Missing)).1 = Ok tt ∧
  length (fetch_log
            (run_loop Sample.calm 21 (Sample.start Sample.sentinel_at_20 Missing)).2)
    = INTERVAL ∧
  length (List.filter (fun r => has_abstract (Abstract r))
            (rows (df (run_loop Sample.calm 21
                         (Sample.start Sample.sentinel_at_20 Missing)).2)))
    = INTERVAL ∧
  output_file (run_loop Sample.calm 21 (Sample.start Sample.sentinel_at_20 Missing)).2
    = Missing ∧
  output_file (run_loop Sample.calm 21 (Sample.start Sample.sentinel_at_20 Missing)).2
    ≠ Csv (df (run_loop Sample.calm 21
                 (Sample.start Sample.sentinel_at_20 Missing)).2).
Proof. repeat split; vm_compute; done. Qed.

(** ** A checkpoint that cannot be used *)

Lemma get_abstract_same (w : world) (url : cell) (m m' : machine) :
  same_work m m' →
  (get_abstract w url m).1 = (get_abstract w url m').1 ∧
  same_work (get_abstract w url m).2 (get_abstract w url m').2.
Proof.
  intros (Hdf & Ht & Hh & Hf).
  destruct url as [|u|z]; simpl; [done| |done].
  destruct (_ || _); [done|].
  unfold try_except, get_abstract_try, mbind, M_bind, requests_get.
  rewrite <- Ht.
  assert (same_work (with_request u m) (with_request u m')) as Hsame.
  { unfold same_work. simpl. by rewrite Hdf, Ht, Hh, Hf. }
  destruct (http w (ticks m) u) as [sc body| |]; simpl; [|done|done].
  destruct (sc =? 429)%Z; simpl; [done|].
  by destruct (negb _).
Qed.

Lemma loop_body_same (w : world) (total : nat) (it : nat * paper) (m m' : machine) :
  same_work m m' →
  (loop_body w total it m).1 = (loop_body w total it m').1 ∧
  same_work (loop_body w total it m).2 (loop_body w total it m').2.
Proof.
  intros Hsame. destruct it as [i row]. rewrite !loop_body_eq.
  pose proof Hsame as (Hdf & Ht & Hh & Hf). rewrite <- Hdf.
  destruct (negb (has_column "Abstract" _)); [done|].
  destruct (has_abstract _); [done|].
  destruct (negb (has_column "Link" _)); [done|].
  destruct (unusable _); [done|].
  destruct (negb (has_column "Title" _)); [done|].
  assert (same_work (before_fetch total i row m) (before_fetch total i row m')) as H1.
  { unfold same_work. simpl. by rewrite Hdf, Ht, Hh, Hf. }
  destruct (get_abstract_same w (Link row) _ _ H1) as [Hr H2].
  destruct (get_abstract w (Link row) (before_fetch total i row m)) as [ra m2].
  destruct (get_abstract w (Link row) (before_fetch total i row m')) as [ra' m2'].
  simpl in Hr, H2. subst ra'. destruct ra as [a|e]; [|done].
  destruct H2 as (Hdf2 & Ht2 & Hh2 & Hf2).
  unfold sleep, after_fetch, same_work.
  destruct (Py.truthy a), (_ =? 0); simpl; rewrite Ht2;
    destruct (sleep_interrupted w _); simpl; by rewrite ?Hdf2, ?Ht2, ?Hh2, ?Hf2.
Qed.

Lemma for_each_same (w : world) (total : nat) (l : list (nat * paper)) (m m' : machine) :
  same_work m m' →
  (for_each (loop_body w total) l m).1 = (for_each (loop_body w total) l m').1 ∧
  same_work (for_each (loop_body w total) l m).2 (for_each (loop_body w total) l m').2.
Proof.
  revert m m'. induction l as [|x l IH]; intros m m' Hsame; simpl; [done|].
  unfold mbind, M_bind.
  destruct (loop_body_same w total x m m' Hsame) as [Hr H1].
  destruct (loop_body w total x m) as [r m1], (loop_body w total x m') as [r' m1'].
  simpl in Hr, H1. subst r'. destruct r as [[]|e]; [by apply IH|done].
Qed.

Lemma guarded_ticks (body : M unit) (m : machine) :
  ticks (guarded body m).2 = ticks (body m).2.
Proof.
  unfold guarded, try_finally, try_except.
  destruct (body m) as [[[]|e] mb]; [done|]. by destruct e.
Qed.

Lemma process_same (w : world) (m m' : machine) :
  same_work m m' →
  same_work (process w m).2 (process w m').2 ∧
  output_file (process w m).2 = output_file (process w m').2.
Proof.
  intros Hsame.
  assert (df (process w m).2 = df (process w m').2 →
          output_file (process w m).2 = output_file (process w m').2) as Hout.
  { intros Hdf. destruct (process_saved w m) as [_ ->].
    destruct (process_saved w m') as [_ ->]. by rewrite Hdf. }
  rewrite !process_eq in *.
  destruct Hsame as (Hdf & Ht & Hh & Hf). rewrite <- Hdf in *.
  set (total := length (rows (df m))) in *.
  set (m0 := with_console _ m) in *. set (m0' := with_console _ m') in *.
  assert (same_work m0 m0') as H0 by done.
  assert (run_loop w total m0' = for_each (loop_body w total) (iterrows (df m)) m0')
    as E2.
  { rewrite run_loop_eq. change (df m0') with (df m'). by rewrite <- Hdf. }
  assert (run_loop w total m0 = for_each (loop_body w total) (iterrows (df m)) m0)
    as E1 by done.
  pose proof (guarded_spec (run_loop w total) m0) as (_ & Hd1 & _ & Hf1 & Hh1).
  pose proof (guarded_spec (run_loop w total) m0') as (_ & Hd2 & _ & Hf2 & Hh2).
  pose proof (guarded_ticks (run_loop w total) m0) as Ht1.
  pose proof (guarded_ticks (run_loop w total) m0') as Ht2.
  destruct (for_each_same w total (iterrows (df m)) m0 m0' H0)
    as (_ & Hd & Htt & Hhh & Hff).
  assert (same_work (guarded (run_loop w total) m0).2 (guarded (run_loop w total) m0').2)
    as Hres.
  { unfold same_work. rewrite Hd1, Hd2, Ht1, Ht2, Hf1, Hf2, Hh1, Hh2, E1, E2. done. }
  split; [done|]. apply Hout. apply Hres.
Qed.

(** C9, as the code has it.  When what is stored under [OUTPUT_FILE] cannot
    be read, or is a table without an [Abstract] or a [Link] column, the run
    does not fail and does the same work as a run without a checkpoint: the
    same frame after loading, the same calls of [get_abstract], the same
    final frame and stored table.  The warning is printed in the first case
    only; a table without the columns is passed over silently. *)
Theorem broken_checkpoint_is_ignored (w : world) (f : frame) (out : file) :
  out = Unreadable ∨
  (∃ g, out = Csv g ∧ has_column "Abstract" g && has_column "Link" g = false) →
  (run w (Csv f) out).1 = Ok tt ∧
  df (load_and_merge (Csv f) (boot out)).2 = init_Abstract f ∧
  df (run w (Csv f) out).2 = df (run w (Csv f) Missing).2 ∧
  fetch_log (run w (Csv f) out).2 = fetch_log (run w (Csv f) Missing).2 ∧
  output_file (run w (Csv f) out).2 = output_file (run w (Csv f) Missing).2 ∧
  console (load_and_merge (Csv f) (boot out)).2
    = [MsgReading; MsgFoundExisting] ++
      match out with Unreadable => [MsgWarning ReadError] | _ => [] end.
Proof.
  intros Hout.
  assert (merged f out = init_Abstract f) as Hm.
  { destruct Hout as [->|(g & -> & Hg)]; [done|]. unfold merged. by rewrite Hg. }
  destruct (load_and_merge_spec f (boot out)) as (_ & Hdf & _ & Hf & Ht & Hh).
  destruct (load_and_merge_spec f (boot Missing)) as (_ & Hdf' & _ & Hf' & Ht' & Hh').
  change (output_file (boot out)) with out in Hdf.
  change (merged f (output_file (boot Missing))) with (init_Abstract f) in Hdf'.
  rewrite Hm in Hdf.
  assert (same_work (load_and_merge (Csv f) (boot out)).2
                    (load_and_merge (Csv f) (boot Missing)).2) as Hsame.
  { unfold same_work. by rewrite Hdf, Hdf', Hf, Hf', Ht, Ht', Hh, Hh'. }
  destruct (process_same w _ _ Hsame) as [(Hd & _ & _ & Hff) Ho].
  rewrite !run_eq. split_and!; try done.
  - apply process_saved.
  - destruct Hout as [->|(g & -> & Hg)]; [done|].
    unfold load_and_merge, resume, mbind, M_bind, print, read_csv, put_df,
      try_except, mret, M_ret.
    cbn -[init_Abstract has_column]. rewrite Hg. done.
Qed.

Lemma broken_checkpoint_is_ignored_witness :
  (run Sample.calm (Csv Sample.two_papers) Unreadable).1 = Ok tt ∧
  df (load_and_merge (Csv Sample.two_papers) (boot Unreadable)).2
    = init_Abstract Sample.two_papers ∧
  df (run Sample.calm (Csv Sample.two_papers) Unreadable).2
    = df (run Sample.calm (Csv Sample.two_papers) Missing).2 ∧
  fetch_log (run Sample.calm (Csv Sample.two_papers) Unreadable).2
    = fetch_log (run Sample.calm (Csv Sample.two_papers) Missing).2 ∧
  output_file (run Sample.calm (Csv Sample.two_papers) Unreadable).2
    = output_file (run Sample.calm (Csv Sample.two_papers) Missing).2 ∧
  console (load_and_merge (Csv Sample.two_papers) (boot Unreadable)).2
    = [MsgReading; MsgFoundExisting] ++ [MsgWarning ReadError].
Proof.
  apply (broken_checkpoint_is_ignored Sample.calm Sample.two_papers Unreadable).
  left. reflexivity.
Defined.

(** C9 as stated fails where it promises a warning for a table that lacks
    the columns: the run goes on, and no warning is among the lines printed
    while loading. *)
Lemma missing_columns_print_no_warning :
  has_column "Abstract" Sample.no_abstract_column = false ∧
  (load_and_merge (Csv Sample.two_papers) (boot (Csv Sample.no_abstract_column))).1
    = Ok tt ∧
  console (load_and_merge (Csv Sample.two_papers)
             (boot (Csv Sample.no_abstract_column))).2
    = [MsgReading; MsgFoundExisting] ∧
  ¬ ∃ e, MsgWarning e ∈
         console (load_and_merge (Csv Sample.two_papers)
                    (boot (Csv Sample.no_abstract_column))).2.
Proof.
  split_and!; [done|done|done|].
  intros [e He]. vm_compute in He.
  apply elem_of_cons in He as [?|He]; [done|].
  apply elem_of_cons in He as [?|He]; [done|].
  by apply elem_of_nil in He.
Qed.

(** ** The dictionary of the checkpoint *)

Lemma notna_true (c : cell) : notna c = true ↔ c ≠ NA.
Proof. destruct c; simpl; split; done. Qed.

Lemma has_abstract_notna (c : cell) : has_abstract c = true → c ≠ NA.
Proof. by destruct c. Qed.

Lemma elem_of_dropna (l : list paper) (r : paper) :
  r ∈ dropna l ↔ r ∈ l ∧ Link r ≠ NA ∧ Abstract r ≠ NA.
Proof.
  unfold dropna. rewrite !list_elem_of_In, filter_In, Bool.andb_true_iff,
    !notna_true. done.
Qed.

Lemma elem_of_filter_notna (l : list cell) (c : cell) :
  c ∈ List.filter notna l ↔ c ∈ l ∧ c ≠ NA.
Proof. by rewrite !list_elem_of_In, filter_In, notna_true. Qed.

Lemma existing_map_Some (g : frame) (k v : cell) :
  existing_map g !! k = Some v →
  ∃ r, r ∈ rows g ∧ Link r = k ∧ Abstract r = v ∧ k ≠ NA ∧ v ≠ NA.
Proof.
  unfold existing_map, to_dict. intros H%elem_of_list_to_map_2.
  apply elem_of_reverse, list_elem_of_fmap in H as (r & [= -> ->] & Hr).
  apply elem_of_dropna in Hr as (Hr & Hl & Ha). by exists r.
Qed.

Lemma unique_links_tail (x : paper) (l : list paper) :
  unique_links (x :: l) → unique_links l.
Proof.
  unfold unique_links. simpl. destruct (notna (Link x)); [|done].
  by intros [_ H]%NoDup_cons.
Qed.

Lemma unique_links_head (x r : paper) (l : list paper) :
  unique_links (x :: l) → Link x ≠ NA → r ∈ l → Link r ≠ Link x.
Proof.
  unfold unique_links. simpl. intros Hnd Hx Hr Heq.
  apply notna_true in Hx as Hx'. rewrite Hx' in Hnd.
  apply NoDup_cons in Hnd as [Hnotin _]. apply Hnotin.
  apply elem_of_filter_notna. split; [|done].
  rewrite <- Heq. apply list_elem_of_fmap. by exists r.
Qed.

Lemma unique_links_lookup (l : list paper) (i j : nat) (r r' : paper) :
  unique_links l → l !! i = Some r → l !! j = Some r' →
  Link r = Link r' → Link r ≠ NA → i = j.
Proof.
  revert i j. induction l as [|x l IH]; intros i j Hu Hi Hj Heq Hna; [done|].
  destruct i as [|i], j as [|j]; simpl in *.
  - done.
  - injection Hi as ->. apply list_elem_of_lookup_2 in Hj.
    by destruct (unique_links_head r r' l Hu Hna Hj).
  - injection Hj as ->. apply list_elem_of_lookup_2 in Hi.
    rewrite Heq in Hna. by destruct (unique_links_head r' r l Hu Hna Hi).
  - f_equal. apply IH; [by eapply unique_links_tail|done..].
Qed.



Lemma unique_links_one_abstract (l : list paper) :
  unique_links l → one_abstract_per_link l.
Proof.
  intros Hu r r' (Hr & Hl & _)%elem_of_dropna (Hr' & _)%elem_of_dropna Heq.
  apply list_elem_of_lookup_1 in Hr as [i Hi], Hr' as [j Hj].
  assert (i = j) as <- by (eapply (unique_links_lookup l i j r r'); eauto).
  congruence.
Qed.

Lemma existing_map_consistent (g : frame) (r : paper) :
  one_abstract_per_link (rows g) → r ∈ dropna (rows g) →
  existing_map g !! Link r = Some (Abstract r).
Proof.
  intros Hone Hr. unfold existing_map, to_dict.
  apply elem_of_list_to_map_1'.
  - intros y Hy.
    apply elem_of_reverse, list_elem_of_fmap in Hy as (r' & [= E ->] & Hr').
    by apply Hone.
  - apply elem_of_reverse, list_elem_of_fmap. by exists r.
Qed.


Lemma has_column_init_Link (f : frame) :
  has_column "Link" (init_Abstract f) = has_column "Link" f.
Proof.
  unfold init_Abstract. destruct (has_column "Abstract" f); [done|].
  unfold has_column. simpl. rewrite existsb_app. simpl.
  by rewrite !Bool.orb_false_r.
Qed.

Lemma merged_usable (f g : frame) :
  has_column "Link" f = true →
  has_column "Abstract" g = true → has_column "Link" g = true →
  merged f (Csv g) =
  {| columns := columns (init_Abstract f);
     rows := merge_row (existing_map g) <$> rows (init_Abstract f) |}.
Proof.
  intros Hf Ha Hl. unfold merged. by rewrite Ha, Hl, has_column_init_Link, Hf.
Qed.


Lemma init_Abstract_lookup (f : frame) (j : nat) (c : paper) :
  rows f !! j = Some c →
  ∃ a, rows (init_Abstract f) !! j = Some (set_Abstract a c).
Proof.
  intros Hj. unfold init_Abstract. destruct (has_column "Abstract" f); simpl.
  - exists (Abstract c). rewrite Hj. by destruct c.
  - exists NA. by rewrite list_lookup_fmap, Hj.
Qed.

(** ** The merge step *)

(** C3.  With a checkpoint that has both columns and is unambiguous (as it
    is when links identify records), loading copies the abstract of every
    checkpoint record that has one (and has a link) into each corpus record
    with that link; and the run that follows calls [get_abstract] only for
    rows whose abstract is still unresolved after the merge. *)
Theorem merge_copies_resolved_abstracts (f ckpt : frame) :
  has_column "Link" f = true →
  has_column "Abstract" ckpt = true →
  has_column "Link" ckpt = true →
  one_abstract_per_link (rows ckpt) →
  (∀ r j c,
     r ∈ rows ckpt → has_abstract (Abstract r) = true → Link r ≠ NA →
     rows f !! j = Some c → Link c = Link r →
     rows (df (load_and_merge (Csv f) (boot (Csv ckpt))).2) !! j
       = Some (set_Abstract (Abstract r) c)) ∧
  (∀ w j c,
     (j, c) ∈ fetch_log (run w (Csv f) (Csv ckpt)).2 →
     ∃ row, rows (df (load_and_merge (Csv f) (boot (Csv ckpt))).2) !! j = Some row ∧
            Link row = c ∧ has_abstract (Abstract row) = false).
Proof.
  intros Hf Ha Hl Hu.
  destruct (load_and_merge_spec f (boot (Csv ckpt))) as (_ & Hdf & _ & Hlog & _).
  change (output_file (boot (Csv ckpt))) with (Csv ckpt) in Hdf.
  split.
  - intros r j c Hr Hres%has_abstract_notna Hna Hj Heq.
    rewrite Hdf, (merged_usable f ckpt Hf Ha Hl). simpl.
    destruct (init_Abstract_lookup f j c Hj) as [a Hj'].
    rewrite list_lookup_fmap, Hj'. simpl. f_equal.
    assert (r ∈ dropna (rows ckpt)) as Hin by (by apply elem_of_dropna).
    pose proof (existing_map_consistent ckpt r Hu Hin) as Hmap.
    unfold merge_row. simpl. by rewrite Heq, Hmap.
  - intros w j c. rewrite run_eq.
    set (m1 := (load_and_merge (Csv f) (boot (Csv ckpt))).2) in *.
    destruct (process_evolves w m1) as [_ _ _ (new & -> & Hall)].
    rewrite Hlog. simpl. intros Hjc.
    rewrite Forall_forall in Hall.
    pose proof (Hall _ Hjc) as (row & Hin%elem_of_iterrows & Hc & Hres & _).
    simpl in Hin, Hc. subst c. by exists row.
Qed.

Ltac distinct_cells :=
  repeat (apply NoDup_cons; split;
          [let H := fresh in
           intros H;
           repeat (apply elem_of_cons in H as [H|H]; [discriminate H|]);
           by apply elem_of_nil in H|]);
  apply NoDup_nil_2.

Lemma unique_links_abc_checkpoint : unique_links (rows Sample.abc_checkpoint).
Proof. unfold unique_links. simpl. distinct_cells. Qed.


Lemma merge_copies_resolved_abstracts_witness :
  rows (df (load_and_merge (Csv Sample.abc) (boot (Csv Sample.abc_checkpoint))).2) !! 0
    = Some (set_Abstract (Str "Abstract of A") (Sample.row_of 1)) ∧
  (∀ w j c,
     (j, c) ∈ fetch_log (run w (Csv Sample.abc) (Csv Sample.abc_checkpoint)).2 →
     ∃ row,
       rows (df (load_and_merge (Csv Sample.abc)
                   (boot (Csv Sample.abc_checkpoint))).2) !! j = Some row ∧
       Link row = c ∧ has_abstract (Abstract row) = false).
Proof.
  destruct (merge_copies_resolved_abstracts Sample.abc Sample.abc_checkpoint
              eq_refl eq_refl eq_refl
              (unique_links_one_abstract _ unique_links_abc_checkpoint)) as [H1 H2].
  split; [|exact H2].
  apply (H1 (set_Abstract (Str "Abstract of A") (Sample.row_of 1)) 0 (Sample.row_of 1)).
  - apply list_elem_of_here.
  - reflexivity.
  - discriminate.
  - reflexivity.
  - reflexivity.
Defined.

(** The run of the specification's example: links A, B, C, the checkpoint
    has resolved A and B, and the only call is for C. *)
Example resume_attempts_only_C :
  fetch_log (run Sample.calm (Csv Sample.abc) (Csv Sample.abc_checkpoint)).2
    = [(2, Str (Sample.link_of 3))] ∧
  http_log (run Sample.calm (Csv Sample.abc) (Csv Sample.abc_checkpoint)).2
    = [Sample.link_of 3].
Proof. split; vm_compute; reflexivity. Qed.

(** ** Running twice *)

Lemma skipped_row_untouched (w : world) (m : machine) (i : nat) (r : paper) :
  rows (df m) !! i = Some r →
  (∀ c, ¬ attempted (iterrows (df m)) i c) →
  fetch_log m = [] →
  (∀ c, (i, c) ∉ fetch_log (process w m).2) ∧
  rows (df (process w m).2) !! i = Some r.
Proof.
  intros Hr Hno Hlog.
  destruct (process_evolves w m) as [_ Hlen Hrows (new & Hnew & Hall)].
  split.
  - intros c Hic. rewrite Hnew, Hlog in Hic. simpl in Hic.
    rewrite Forall_forall in Hall. by apply (Hno c), (Hall _ Hic).
  - destruct (rows (df (process w m).2) !! i) as [r'|] eqn:Hr'.
    + destruct (Hrows i r r' Hr Hr') as [->|(a & _ & _ & c & Hc)]; [done|].
      by destruct (Hno c).
    + apply lookup_ge_None in Hr'. apply lookup_lt_Some in Hr. lia.
Qed.

Lemma frame_eq (f g : frame) :
  columns f = columns g → rows f = rows g → f = g.
Proof. destruct f, g. simpl. by intros -> ->. Qed.


Lemma merged_lookup (f : frame) (out : file) (j : nat) (r0 : paper) :
  rows (init_Abstract f) !! j = Some r0 →
  ∃ r1, rows (merged f out) !! j = Some r1 ∧
        (r1 = r0 ∨
         (Link r0 ≠ NA ∧ Abstract r1 ≠ NA ∧ r1 = set_Abstract (Abstract r1) r0)).
Proof.
  intros H0. unfold merged. destruct out as [| |g]; try by (exists r0; auto).
  destruct (_ && _); [|by exists r0; auto]. simpl.
  rewrite list_lookup_fmap, H0. simpl. eexists. split; [done|].
  unfold merge_row. destruct (existing_map g !! Link r0) as [v|] eqn:Hv; [|by left].
  apply existing_map_Some in Hv as (_ & _ & _ & _ & Hk & Hv). by right.
Qed.






(** * Further properties *)

(** ** What [get_abstract] returns *)

(** X1.  Every status other than 200, the 429 of line 39 included, ends in
    [None] after the one request. *)
Theorem non_200_yields_none (w : world) (u : string) (m : machine)
    (sc : Z) (body : list Bs4.node) :
  skipped_url u = false →
  http w (ticks m) u = Response sc body →
  sc ≠ 200%Z →
  get_abstract w (Str u) m = (Ok None, with_request u m).
Proof.
  unfold skipped_url. intros Hs Hh Hsc. simpl. rewrite Hs.
  unfold try_except, get_abstract_try, mbind, M_bind, requests_get.
  rewrite Hh. simpl.
  destruct (sc =? 429)%Z; [done|].
  apply Z.eqb_neq in Hsc. by rewrite Hsc.
Qed.

Lemma non_200_yields_none_witness :
  get_abstract {| http := fun _ _ => Response 503 Sample.page_both;
                  sleep_interrupted := fun _ => false |}
    (Str (Sample.link_of 1)) (boot Missing)
  = (Ok None, with_request (Sample.link_of 1) (boot Missing)).
Proof.
  apply (non_200_yields_none _ (Sample.link_of 1) (boot Missing) 503 Sample.page_both).
  - reflexivity.
  - reflexivity.
  - discriminate.
Defined.

(** X2.  The only exception that leaves [get_abstract] is the operator's
    interrupt of the request; a failed request is answered with [None]. *)
Theorem get_abstract_raises_only_interrupt (w : world) (url : cell) (m : machine) :
  (∀ e, (get_abstract w url m).1 = Raise e →
        e = KeyboardInterrupt ∧
        ∃ u, url = Str u ∧ skipped_url u = false ∧ http w (ticks m) u = Interrupted) ∧
  (∀ u, url = Str u → http w (ticks m) u = ConnectionFailed →
        (get_abstract w url m).1 = Ok None).
Proof.
  split.
  - intros e. destruct url as [|u|z]; simpl; [done| |done].
    fold (skipped_url u). destruct (skipped_url u) eqn:Hs; [done|].
    unfold try_except, get_abstract_try, mbind, M_bind, requests_get.
    destruct (http w (ticks m) u) as [sc body| |] eqn:Hh; simpl.
    + destruct (sc =? 429)%Z; simpl; [done|]. by destruct (negb _).
    + done.
    + intros [= <-]. split; [done|]. by exists u.
  - intros u -> Hh. simpl. destruct (_ || _); [done|].
    unfold try_except, get_abstract_try, mbind, M_bind, requests_get.
    by rewrite Hh.
Qed.

Lemma get_abstract_raises_only_interrupt_witness :
  (get_abstract Sample.offline (Str (Sample.link_of 1)) (boot Missing)).1 = Ok None.
Proof.
  destruct (get_abstract_raises_only_interrupt Sample.offline
              (Str (Sample.link_of 1)) (boot Missing)) as [_ H].
  apply (H (Sample.link_of 1)).
  - reflexivity.
  - reflexivity.
Defined.

Lemma get_abstract_Some (w : world) (url : cell) (m : machine) (a : string) :
  (get_abstract w url m).1 = Ok (Some a) →
  ∃ u soup, url = Str u ∧ skipped_url u = false ∧
            http w (ticks m) u = Response 200 soup ∧ strategy1 soup = Some a.
Proof.
  destruct url as [|u|z]; simpl; [done| |done].
  fold (skipped_url u). destruct (skipped_url u) eqn:Hs; [done|].
  unfold try_except, get_abstract_try, mbind, M_bind, requests_get.
  destruct (http w (ticks m) u) as [sc body| |] eqn:Hh; simpl; [|done|done].
  destruct (sc =? 429)%Z; simpl; [done|].
  destruct (sc =? 200)%Z eqn:H200; simpl; [|done].
  apply Z.eqb_eq in H200 as ->. intros [= Ha]. by exists u, body.
Qed.

(** ** Trimmed texts *)

Lemma nonempty_lstrip (s : string) : Py.nonempty (Py.lstrip s) = has_nonspace s.
Proof.
  induction s as [|c s IH]; simpl; [done|].
  by destruct (Py.isspace c).
Qed.

Lemma has_nonspace_lstrip (s : string) : has_nonspace (Py.lstrip s) = has_nonspace s.
Proof.
  induction s as [|c s IH]; simpl; [done|].
  destruct (Py.isspace c) eqn:Hc; simpl; [done|]. by rewrite Hc.
Qed.

Lemma has_nonspace_rev_app (s acc : string) :
  has_nonspace (String.rev_app s acc) = has_nonspace s || has_nonspace acc.
Proof.
  revert acc. induction s as [|c s IH]; intros acc; simpl; [done|].
  rewrite IH. simpl. by destruct (Py.isspace c), (has_nonspace s).
Qed.

Lemma has_nonspace_rev (s : string) : has_nonspace (String.rev s) = has_nonspace s.
Proof.
  unfold String.rev. rewrite has_nonspace_rev_app. simpl.
  by rewrite Bool.orb_false_r.
Qed.

Lemma nonempty_rev_app (s acc : string) :
  Py.nonempty (String.rev_app s acc) = Py.nonempty s || Py.nonempty acc.
Proof.
  revert acc. induction s as [|c s IH]; intros acc; simpl; [done|].
  rewrite IH. simpl. apply Bool.orb_true_r.
Qed.

Lemma nonempty_rev (s : string) : Py.nonempty (String.rev s) = Py.nonempty s.
Proof.
  unfold String.rev. rewrite nonempty_rev_app. simpl. apply Bool.orb_false_r.
Qed.

(** Stripping leaves something exactly when there is a character that is
    not white space, and then it keeps one. *)
Lemma nonempty_strip (s : string) : Py.nonempty (Py.strip s) = has_nonspace s.
Proof.
  unfold Py.strip, Py.rstrip.
  by rewrite nonempty_rev, nonempty_lstrip, has_nonspace_rev, has_nonspace_lstrip.
Qed.

Lemma has_nonspace_strip (s : string) : has_nonspace (Py.strip s) = has_nonspace s.
Proof.
  unfold Py.strip, Py.rstrip.
  by rewrite has_nonspace_rev, has_nonspace_lstrip, has_nonspace_rev,
    has_nonspace_lstrip.
Qed.

Lemma has_nonspace_append (s1 s2 : string) :
  has_nonspace (s1 +:+ s2) = has_nonspace s1 || has_nonspace s2.
Proof.
  induction s1 as [|c s1 IH]; simpl; [done|].
  rewrite IH. by destruct (Py.isspace c).
Qed.

Lemma has_nonspace_concat (l : list string) :
  Forall (fun t => has_nonspace t = true) l →
  Py.nonempty (String.concat "" l) = true →
  has_nonspace (String.concat "" l) = true.
Proof.
  intros Hall. destruct Hall as [|t l Ht Hl]; simpl; [done|].
  destruct l as [|t' l]; [done|].
  intros _. by rewrite has_nonspace_append, Ht.
Qed.

Lemma get_text_strip_has_nonspace (contents : list Bs4.node) :
  Py.nonempty (Bs4.get_text_strip contents) = true →
  has_nonspace (Bs4.get_text_strip contents) = true.
Proof.
  unfold Bs4.get_text_strip. apply has_nonspace_concat.
  apply List.Forall_forall. intros t [Hin Ht]%filter_In.
  apply in_map_iff in Hin as (s & <- & _).
  rewrite has_nonspace_strip. by rewrite <- nonempty_strip.
Qed.

Lemma strategy1_has_nonspace (soup : list Bs4.node) (a : string) :
  strategy1 soup = Some a → Py.nonempty a = true → has_nonspace a = true.
Proof.
  assert (H3 : strategy3 soup = Some a → Py.nonempty a = true →
               has_nonspace a = true).
  { unfold strategy3. destruct (Bs4.find_class soup "abstract"); [|done].
    intros [= <-]. apply get_text_strip_has_nonspace. }
  assert (H2 : strategy2 soup = Some a → Py.nonempty a = true →
               has_nonspace a = true).
  { unfold strategy2.
    destruct (Bs4.find_string _ _ _) as [header|]; [|done].
    destruct (Bs4.find_next_sibling header "p");
      [intros [= <-]; apply get_text_strip_has_nonspace|].
    destruct (Bs4.find_next_sibling header "div");
      [intros [= <-]; apply get_text_strip_has_nonspace|].
    destruct (Bs4.find_next header _);
      [intros [= <-]; apply get_text_strip_has_nonspace|done]. }
  unfold strategy1.
  destruct (Bs4.find_attr _ _ _ _) as [md|]; [|done].
  destruct (Bs4.get "content" _) as [c|]; [|done].
  destruct (Py.nonempty c); [|done].
  intros [= <-]. rewrite has_nonspace_strip. by rewrite nonempty_strip.
Qed.

Lemma get_abstract_text_resolved (w : world) (url : cell) (m : machine) (a : string) :
  (get_abstract w url m).1 = Ok (Some a) → Py.nonempty a = true →
  has_abstract (Str a) = true.
Proof.
  intros (u & soup & _ & _ & _ & Hs)%get_abstract_Some Hne.
  unfold has_abstract. simpl. rewrite nonempty_strip.
  by apply (strategy1_has_nonspace soup).
Qed.

(** X3.  Whatever non-empty text [get_abstract] returns passes the test of
    line 112 as it stands in the frame: it is not blank after [strip]. *)
Theorem returned_abstract_counts_as_resolved (w : world) (url : cell)
    (m : machine) (a : string) :
  (get_abstract w url m).1 = Ok (Some a) →
  Py.nonempty a = true →
  has_abstract (Str a) = true.
Proof.
  intros (u & soup & _ & _ & _ & Hs)%get_abstract_Some Hne.
  unfold has_abstract. simpl. rewrite nonempty_strip.
  by apply (strategy1_has_nonspace soup).
Qed.

Lemma returned_abstract_counts_as_resolved_witness :
  has_abstract (Str "We study checkpoints.") = true.
Proof.
  apply (returned_abstract_counts_as_resolved
           {| http := fun _ _ => Response 200 Sample.page_both;
              sleep_interrupted := fun _ => false |}
           (Str (Sample.link_of 1)) (boot Missing)).
  - reflexivity.
  - reflexivity.
Defined.

(** ** Progress only *)

Lemma settles_refl (m : machine) : settles m m.
Proof. split; [done|]. intros j r0 r' H0 H'. left. congruence. Qed.

Lemma settles_trans (m1 m2 m3 : machine) :
  settles m1 m2 → settles m2 m3 → settles m1 m3.
Proof.
  intros [Hl1 H1] [Hl2 H2]. split; [congruence|].
  intros j r0 r'' H0 H''.
  destruct (rows (df m2) !! j) as [r'|] eqn:H'.
  - destruct (H2 j r' r'' H' H'') as [->|?]; [|by right].
    by apply (H1 j).
  - apply lookup_ge_None in H'. apply lookup_lt_Some in H0. lia.
Qed.

Lemma settles_same (m m' : machine) : df m' = df m → settles m m'.
Proof.
  intros Hdf. split; [by rewrite Hdf|].
  rewrite Hdf. intros j r0 r' H0 H'. left. congruence.
Qed.

Lemma loop_body_settles (w : world) (total : nat) (it : nat * paper) (m : machine) :
  settles m (loop_body w total it m).2.
Proof.
  destruct it as [i row]. rewrite loop_body_eq.
  destruct (negb (has_column "Abstract" _)); [apply settles_refl|].
  destruct (has_abstract _); [apply settles_refl|].
  destruct (negb (has_column "Link" _)); [apply settles_refl|].
  destruct (unusable _); [apply settles_refl|].
  destruct (negb (has_column "Title" _)); [apply settles_refl|].
  pose proof (get_abstract_df w (Link row) (before_fetch total i row m)) as (Hdf & _).
  pose proof (get_abstract_text_resolved w (Link row)
                (before_fetch total i row m)) as Hres.
  destruct (get_abstract _ _ _) as [[a|e] m2]; simpl in *;
    [|by apply settles_same].
  eapply settles_trans; [apply (settles_same m m2); by rewrite Hdf|].
  eapply settles_trans; [|apply settles_same, sleep_frame].
  split.
  - rewrite after_fetch_df. destruct (Py.truthy a); [|done]. simpl.
    by rewrite length_alter.
  - rewrite after_fetch_df. intros j r0 r'.
    destruct a as [a|]; simpl; [|left; congruence].
    destruct (Py.nonempty a) eqn:Ha; [|left; congruence].
    simpl. intros H0. destruct (decide (i = j)) as [->|Hne].
    + rewrite list_lookup_alter_eq, H0. intros [= <-]. right. by apply Hres.
    + rewrite list_lookup_alter_ne by done. left. congruence.
Qed.

Lemma process_settles (w : world) (m : machine) : settles m (process w m).2.
Proof.
  rewrite process_eq. set (m0 := with_console _ m).
  pose proof (guarded_spec (run_loop w (length (rows (df m)))) m0) as (_ & Hdf & _).
  eapply settles_trans; [|by apply settles_same].
  eapply settles_trans; [apply (settles_same m m0); done|].
  rewrite run_loop_eq.
  apply (for_each_rel settles); [apply settles_refl|apply settles_trans|].
  intros x m' _. apply loop_body_settles.
Qed.

(** X4.  The loop only makes progress: after lines 107-142 a record is
    either exactly as it was, or it was unresolved with a usable link and is
    now resolved, with the same Year, Title, Authors and Link.  No abstract
    is ever erased or replaced. *)
Theorem loop_only_resolves (w : world) (m : machine) (j : nat) (r0 r' : paper) :
  rows (df m) !! j = Some r0 →
  rows (df (process w m).2) !! j = Some r' →
  r' = r0 ∨
  (has_abstract (Abstract r0) = false ∧ unusable (Link r0) = false ∧
   has_abstract (Abstract r') = true ∧ metadata r' = metadata r0).
Proof.
  intros H0 H'.
  destruct (process_evolves w m) as [_ _ Hrows _].
  destruct (process_settles w m) as [_ Hset].
  destruct (Hrows j r0 r' H0 H') as [->|(a & -> & _ & c & row & Hin & _ & Hres & Hus)];
    [by left|].
  apply elem_of_iterrows in Hin. assert (row = r0) as -> by congruence.
  destruct (Hset j r0 _ H0 H') as [->|Hdone]; [by left|].
  right. by split_and!.
Qed.

Lemma loop_only_resolves_witness :
  set_Abstract (Str "https://papers.example/3") (Sample.row_of 3) = Sample.row_of 3 ∨
  (has_abstract (Abstract (Sample.row_of 3)) = false ∧
   unusable (Link (Sample.row_of 3)) = false ∧
   has_abstract (Abstract (set_Abstract (Str "https://papers.example/3")
                             (Sample.row_of 3))) = true ∧
   metadata (set_Abstract (Str "https://papers.example/3") (Sample.row_of 3))
     = metadata (Sample.row_of 3)).
Proof.
  apply (loop_only_resolves Sample.calm (Sample.start Sample.abc_checkpoint Missing) 2).
  - reflexivity.
  - vm_compute. reflexivity.
Defined.

(** ** Requests and calls *)

Lemma requests_of_app (l1 l2 : list (nat * cell)) :
  requests_of (l1 ++ l2) = requests_of l1 ++ requests_of l2.
Proof. unfold requests_of. apply flat_map_app. Qed.

Lemma accounts_refl (m : machine) : accounts m m.
Proof. exists []. by rewrite !app_nil_r. Qed.

Lemma accounts_trans (m1 m2 m3 : machine) :
  accounts m1 m2 → accounts m2 m3 → accounts m1 m3.
Proof.
  intros (n1 & Hf1 & Hh1) (n2 & Hf2 & Hh2). exists (n1 ++ n2).
  by rewrite Hf2, Hf1, Hh2, Hh1, requests_of_app, !(assoc_L (++)).
Qed.

Lemma accounts_same (m m' : machine) :
  fetch_log m' = fetch_log m → http_log m' = http_log m → accounts m m'.
Proof. intros Hf Hh. exists []. by rewrite Hf, Hh, !app_nil_r. Qed.

Lemma get_abstract_http_log (w : world) (i : nat) (url : cell) (m : machine) :
  http_log (get_abstract w url m).2 = http_log m ++ requests_of [(i, url)].
Proof.
  unfold requests_of. simpl.
  destruct url as [|u|z]; simpl; try by rewrite app_nil_r.
  fold (skipped_url u). destruct (skipped_url u); simpl; [by rewrite app_nil_r|].
  unfold try_except, get_abstract_try, mbind, M_bind, requests_get.
  destruct (http w (ticks m) u) as [sc body| |]; simpl; try done.
  destruct (sc =? 429)%Z; simpl; [done|]. by destruct (negb _).
Qed.

Lemma after_fetch_http_log (i : nat) (a : option string) (m : machine) :
  http_log (after_fetch i a m) = http_log m.
Proof. unfold after_fetch. by destruct (Py.truthy a), (_ =? 0). Qed.

Lemma sleep_http_log (w : world) (m : machine) :
  http_log (sleep w m).2 = http_log m.
Proof. unfold sleep. by destruct (sleep_interrupted _ _). Qed.

Lemma loop_body_accounts (w : world) (total : nat) (it : nat * paper) (m : machine) :
  accounts m (loop_body w total it m).2.
Proof.
  destruct it as [i row]. rewrite loop_body_eq.
  destruct (negb (has_column "Abstract" _)); [apply accounts_refl|].
  destruct (has_abstract _); [apply accounts_refl|].
  destruct (negb (has_column "Link" _)); [apply accounts_refl|].
  destruct (unusable _); [apply accounts_refl|].
  destruct (negb (has_column "Title" _)); [apply accounts_refl|].
  pose proof (get_abstract_df w (Link row) (before_fetch total i row m))
    as (_ & Hf & _).
  pose proof (get_abstract_http_log w i (Link row) (before_fetch total i row m)) as Hh.
  assert (accounts m (get_abstract w (Link row) (before_fetch total i row m)).2) as H.
  { exists [(i, Link row)]. by rewrite Hf, Hh. }
  destruct (get_abstract _ _ _) as [[a|e] m2]; simpl in *; [|done].
  eapply accounts_trans; [exact H|]. apply accounts_same.
  - destruct (sleep_frame w (after_fetch i a m2)) as (_ & -> & _).
    apply after_fetch_fetch_log.
  - by rewrite sleep_http_log, after_fetch_http_log.
Qed.

Lemma process_accounts (w : world) (m : machine) : accounts m (process w m).2.
Proof.
  rewrite process_eq. set (m0 := with_console _ m).
  pose proof (guarded_spec (run_loop w (length (rows (df m)))) m0)
    as (_ & _ & _ & Hf & Hh).
  eapply accounts_trans; [|by apply accounts_same].
  eapply accounts_trans; [apply (accounts_same m m0); done|].
  rewrite run_loop_eq.
  apply (for_each_rel accounts); [apply accounts_refl|apply accounts_trans|].
  intros x m' _. apply loop_body_accounts.
Qed.

(** X5.  In a whole run the requests sent are exactly those of the calls of
    [get_abstract] whose argument passes the guard of line 29, one request
    per call and in the order of the calls: nothing is requested twice for
    one call, and nothing is requested outside a call. *)
Theorem one_request_per_fetch (w : world) (f : frame) (out : file) :
  http_log (run w (Csv f) out).2 = requests_of (fetch_log (run w (Csv f) out).2) ∧
  length (http_log (run w (Csv f) out).2) ≤ length (fetch_log (run w (Csv f) out).2).
Proof.
  rewrite run_eq.
  destruct (load_and_merge_spec f (boot out)) as (_ & _ & _ & Hf & _ & Hh).
  destruct (process_accounts w (load_and_merge (Csv f) (boot out)).2)
    as (new & Hnf & Hnh).
  rewrite Hf in Hnf. rewrite Hh in Hnh. simpl in Hnf, Hnh.
  rewrite Hnf, Hnh. split; [done|].
  clear. induction new as [|[i c] new IH]; simpl; [done|].
  rewrite length_app.
  destruct c as [|u|z]; simpl; try lia. destruct (skipped_url u); simpl; lia.
Qed.

(** ** The order of the calls *)

Lemma loop_body_fetch_log (w : world) (total i : nat) (row : paper) (m : machine) :
  fetch_log (loop_body w total (i, row) m).2 = fetch_log m ∨
  fetch_log (loop_body w total (i, row) m).2 = fetch_log m ++ [(i, Link row)].
Proof.
  rewrite loop_body_eq.
  destruct (negb (has_column "Abstract" _)); [by left|].
  destruct (has_abstract _); [by left|].
  destruct (negb (has_column "Link" _)); [by left|].
  destruct (unusable _); [by left|].
  destruct (negb (has_column "Title" _)); [by left|].
  right.
  pose proof (get_abstract_df w (Link row) (before_fetch total i row m))
    as (_ & Hf & _).
  destruct (get_abstract _ _ _) as [[a|e] m2]; simpl in *; [|done].
  destruct (sleep_frame w (after_fetch i a m2)) as (_ & -> & _).
  by rewrite after_fetch_fetch_log.
Qed.

Lemma for_each_fetch_order (w : world) (total : nat) (l : list paper)
    (k : nat) (m : machine) :
  ∃ new, fetch_log (for_each (loop_body w total) (enumerate k l) m).2
           = fetch_log m ++ new ∧
         StronglySorted lt new.*1 ∧
         Forall (fun i => k ≤ i < k + length l) new.*1.
Proof.
  revert k m. induction l as [|x l IH]; intros k m; simpl.
  - exists []. rewrite app_nil_r. split_and!; [done|constructor|constructor].
  - unfold mbind, M_bind.
    pose proof (loop_body_fetch_log w total k x m) as Hk.
    destruct (loop_body w total (k, x) m) as [[[]|e] m1]; simpl in Hk.
    + destruct (IH (S k) m1) as (new & Hnew & Hs & Hb).
      assert (Forall (fun i => k ≤ i < k + S (length l)) new.*1) as Hb'.
      { eapply Forall_impl; [exact Hb|]. simpl. lia. }
      destruct Hk as [Hk|Hk]; rewrite Hk in Hnew.
      * by exists new.
      * exists ((k, Link x) :: new). rewrite Hnew, <- (assoc_L (++)). simpl.
        split_and!; [done| |].
        -- constructor; [done|]. eapply Forall_impl; [exact Hb|]. simpl. lia.
        -- constructor; [lia|done].
    + destruct Hk as [Hk|Hk]; simpl; rewrite Hk.
      * exists []. rewrite app_nil_r. split_and!; [done|constructor|constructor].
      * exists [(k, Link x)]. simpl. split_and!; [done| |].
        -- repeat constructor.
        -- constructor; [lia|constructor].
Qed.

(** X6.  In a whole run the calls of [get_abstract] are made in the order
    of the rows, at most one per row, and only for rows of the input: a
    fetch that failed is not tried again within the run. *)
Theorem fetches_follow_the_rows (w : world) (f : frame) (out : file) :
  StronglySorted lt (fetch_log (run w (Csv f) out).2).*1 ∧
  Forall (fun i => i < length (rows f)) (fetch_log (run w (Csv f) out).2).*1.
Proof.
  rewrite run_eq.
  destruct (load_and_merge_spec f (boot out)) as (_ & Hdf & _ & Hf & _).
  set (m1 := (load_and_merge (Csv f) (boot out)).2) in *.
  rewrite process_eq. set (m0 := with_console _ m1).
  pose proof (guarded_spec (run_loop w (length (rows (df m1)))) m0)
    as (_ & _ & _ & -> & _).
  rewrite run_loop_eq. unfold iterrows.
  destruct (for_each_fetch_order w (length (rows (df m1))) (rows (df m0)) 0 m0)
    as (new & -> & Hs & Hb).
  change (fetch_log m0) with (fetch_log m1). rewrite Hf. simpl. split; [done|].
  eapply Forall_impl; [exact Hb|]. simpl. intros i [_ Hi].
  change (df m0) with (df m1) in Hi. rewrite Hdf in Hi.
  assert (length (rows (merged f (output_file (boot out)))) = length (rows f)) as Hlen.
  { rewrite <- (length_fmap metadata), merged_metadata. by rewrite length_fmap. }
  lia.
Qed.

(** ** A loop that is not cut short *)

Lemma loop_body_fetched (w : world) (total i : nat) (row : paper) (m : machine) :
  (loop_body w total (i, row) m).1 = Ok tt →
  has_abstract (Abstract row) = false → unusable (Link row) = false →
  (i, Link row) ∈ fetch_log (loop_body w total (i, row) m).2.
Proof.
  rewrite loop_body_eq. intros Hok Hres Hus. rewrite Hres, Hus in *.
  destruct (negb (has_column "Abstract" _)); [done|].
  destruct (negb (has_column "Link" _)); [done|].
  destruct (negb (has_column "Title" _)); [done|].
  pose proof (get_abstract_df w (Link row) (before_fetch total i row m))
    as (_ & Hf & _).
  destruct (get_abstract _ _ _) as [[a|e] m2]; simpl in *; [|done].
  destruct (sleep_frame w (after_fetch i a m2)) as (_ & -> & _).
  rewrite after_fetch_fetch_log, Hf. apply elem_of_app. right. by left.
Qed.

Lemma for_each_fetched (w : world) (total : nat) (l : list (nat * paper))
    (m : machine) (i : nat) (row : paper) :
  (for_each (loop_body w total) l m).1 = Ok tt →
  (i, row) ∈ l →
  has_abstract (Abstract row) = false → unusable (Link row) = false →
  (i, Link row) ∈ fetch_log (for_each (loop_body w total) l m).2.
Proof.
  revert m. induction l as [|x l IH]; intros m Hok Hin Hres Hus;
    [by apply elem_of_nil in Hin|].
  simpl in *. unfold mbind, M_bind in *.
  apply elem_of_cons in Hin as [<-|Hin].
  - pose proof (loop_body_fetched w total i row m) as Hx.
    destruct (loop_body w total (i, row) m) as [[[]|e] m1]; [|done].
    simpl in Hx.
    destruct (for_each_evolves w total l m1) as [_ _ _ (new & -> & _)].
    apply elem_of_app. left. by apply Hx.
  - destruct (loop_body w total x m) as [[[]|e] m1]; [|done].
    by apply IH.
Qed.

(** X7.  When the loop runs to its end, every record that had no abstract
    and a usable link has been the subject of a call of [get_abstract]:
    nothing unresolved is passed over. *)
Theorem unbroken_loop_attempts_every_unresolved (w : world) (total : nat)
    (m : machine) (j : nat) (r : paper) :
  (run_loop w total m).1 = Ok tt →
  rows (df m) !! j = Some r →
  has_abstract (Abstract r) = false →
  unusable (Link r) = false →
  (j, Link r) ∈ fetch_log (run_loop w total m).2.
Proof.
  rewrite run_loop_eq. intros Hok Hr Hres Hus.
  apply for_each_fetched; [done| |done|done]. by apply elem_of_iterrows.
Qed.

Lemma unbroken_loop_attempts_every_unresolved_witness :
  (2, Str (Sample.link_of 3)) ∈
  fetch_log (run_loop Sample.offline 3 (Sample.start Sample.abc_checkpoint Missing)).2.
Proof.
  apply (unbroken_loop_attempts_every_unresolved Sample.offline 3
           (Sample.start Sample.abc_checkpoint Missing) 2 (Sample.row_of 3)).
  - vm_compute. reflexivity.
  - reflexivity.
  - reflexivity.
  - reflexivity.
Defined.

(** ** A network that answers by the URL alone *)

Lemma get_abstract_stable (w : world) (net : string → http_result)
    (link : cell) (m : machine) :
  (∀ t u, http w t u = net u) → (∀ u, net u ≠ Interrupted) →
  (get_abstract w link m).1 = Ok (fetch_result net link).
Proof.
  intros Hnet Hno. destruct link as [|u|z]; simpl; [done| |done].
  fold (skipped_url u). destruct (skipped_url u); [done|].
  unfold try_except, get_abstract_try, mbind, M_bind, requests_get.
  rewrite Hnet. specialize (Hno u).
  destruct (net u) as [sc body| |]; simpl; [|done|done].
  destruct (sc =? 429)%Z eqn:H429; simpl.
  - apply Z.eqb_eq in H429 as ->. done.
  - by destruct (sc =? 200)%Z.
Qed.

Lemma loop_body_stable (w : world) (net : string → http_result) (total : nat)
    (before rest : list paper) (row : paper) (m : machine) :
  (∀ t u, http w t u = net u) → (∀ u, net u ≠ Interrupted) →
  (∀ t, sleep_interrupted w t = false) →
  has_column "Abstract" (df m) = true → has_column "Link" (df m) = true →
  has_column "Title" (df m) = true →
  rows (df m) = before ++ row :: rest →
  (loop_body w total (length before, row) m).1 = Ok tt ∧
  columns (df (loop_body w total (length before, row) m).2) = columns (df m) ∧
  rows (df (loop_body w total (length before, row) m).2)
    = before ++ resolve net row :: rest.
Proof.
  intros Hnet Hno Hsl Ha Hl Ht Hrows. rewrite loop_body_eq, Ha, Hl, Ht. simpl.
  unfold resolve.
  destruct (has_abstract _); [done|].
  destruct (unusable _); [done|]. simpl.
  pose proof (get_abstract_df w (Link row) (before_fetch total (length before) row m))
    as (Hdf & _).
  pose proof (get_abstract_stable w net (Link row)
                (before_fetch total (length before) row m) Hnet Hno) as Hres.
  destruct (get_abstract _ _ _) as [ra m2]. simpl in Hdf, Hres. subst ra.
  unfold sleep. rewrite Hsl. simpl.
  rewrite after_fetch_df, Hdf. simpl.
  destruct (fetch_result net (Link row)) as [a|]; simpl; [|done].
  destruct (Py.nonempty a); simpl; [|done].
  split_and!; [done|done|].
  rewrite Hrows. rewrite <- (Nat.add_0_r (length before)) at 1.
  by rewrite alter_app_r.
Qed.

Lemma for_each_stable (w : world) (net : string → http_result) (total : nat)
    (l before : list paper) (m : machine) :
  (∀ t u, http w t u = net u) → (∀ u, net u ≠ Interrupted) →
  (∀ t, sleep_interrupted w t = false) →
  has_column "Abstract" (df m) = true → has_column "Link" (df m) = true →
  has_column "Title" (df m) = true →
  rows (df m) = before ++ l →
  (for_each (loop_body w total) (enumerate (length before) l) m).1 = Ok tt ∧
  columns (df (for_each (loop_body w total) (enumerate (length before) l) m).2)
    = columns (df m) ∧
  rows (df (for_each (loop_body w total) (enumerate (length before) l) m).2)
    = before ++ (resolve net <$> l).
Proof.
  intros Hnet Hno Hsl. revert before m.
  induction l as [|x l IH]; intros before m Ha Hl Ht Hrows; simpl.
  - by rewrite app_nil_r in *.
  - unfold mbind, M_bind.
    destruct (loop_body_stable w net total before l x m Hnet Hno Hsl Ha Hl Ht Hrows)
      as (Hok & Hcols & Hrows').
    destruct (loop_body w total (length before, x) m) as [r m1].
    simpl in Hok, Hcols, Hrows'. subst r.
    unfold has_column in *. rewrite <- Hcols in Ha, Hl, Ht.
    specialize (IH (before ++ [resolve net x]) m1 Ha Hl Ht).
    rewrite length_app in IH. simpl in IH. rewrite Nat.add_1_r in IH.
    rewrite <- (assoc_L (++)) in IH. simpl in IH.
    destruct (IH Hrows') as (Hok' & Hcols' & Hrows'').
    split_and!; [done|congruence|].
    rewrite Hrows''. by rewrite <- (assoc_L (++)).
Qed.


(** X8.  When the answer to a request depends on the URL alone and nobody
    interrupts, the run resolves every record on its own: the frame it ends
    with, and stores, is the frame it started from with each row replaced
    by its resolution (a row with an abstract or without a usable link as it
    was, any other with the fetched text if one was found). *)
Theorem stable_network_run_resolves_each_record (w : world)
    (net : string → http_result) (m : machine) :
  (∀ t u, http w t u = net u) →
  (∀ u, net u ≠ Interrupted) →
  (∀ t, sleep_interrupted w t = false) →
  has_column "Abstract" (df m) = true →
  has_column "Link" (df m) = true →
  has_column "Title" (df m) = true →
  df (process w m).2
    = {| columns := columns (df m); rows := resolve net <$> rows (df m) |} ∧
  output_file (process w m).2
    = Csv {| columns := columns (df m); rows := resolve net <$> rows (df m) |}.
Proof.
  intros Hnet Hno Hsl Ha Hl Ht.
  destruct (process_saved w m) as [_ ->].
  assert (df (process w m).2
          = {| columns := columns (df m); rows := resolve net <$> rows (df m) |})
    as ->; [|done].
  rewrite process_eq. set (m0 := with_console _ m).
  pose proof (guarded_spec (run_loop w (length (rows (df m)))) m0) as (_ & -> & _).
  rewrite run_loop_eq. unfold iterrows.
  destruct (for_each_stable w net (length (rows (df m))) (rows (df m0)) [] m0
              Hnet Hno Hsl Ha Hl Ht eq_refl) as (_ & Hcols & Hrows).
  simpl in Hcols, Hrows. by apply frame_eq.
Qed.

Lemma stable_network_run_resolves_each_record_witness :
  df (process Sample.calm (Sample.start Sample.abc_checkpoint Missing)).2
    = {| columns := columns Sample.abc_checkpoint;
         rows := resolve (fun u => Response 200 (Sample.page_heading u))
                   <$> rows Sample.abc_checkpoint |} ∧
  output_file (process Sample.calm (Sample.start Sample.abc_checkpoint Missing)).2
    = Csv {| columns := columns Sample.abc_checkpoint;
             rows := resolve (fun u => Response 200 (Sample.page_heading u))
                       <$> rows Sample.abc_checkpoint |}.
Proof.
  apply (stable_network_run_resolves_each_record Sample.calm
           (fun u => Response 200 (Sample.page_heading u))
           (Sample.start Sample.abc_checkpoint Missing)).
  - reflexivity.
  - discriminate.
  - reflexivity.
  - reflexivity.
  - reflexivity.
  - reflexivity.
Defined.

(** ** Inputs the run cannot work on *)

(** X9.  When there is nothing under [INPUT_FILE] the run prints one line
    and returns; when what is there cannot be read, the exception of
    [pd.read_csv] leaves [main] (loading is outside the [try]).  In both
    cases nothing is requested and what is stored under [OUTPUT_FILE] is
    left as it was: the final save of the loop does not apply. *)
Theorem unusable_input_touches_nothing (w : world) (out : file) :
  ((run w Missing out).1 = Ok tt ∧
   console (run w Missing out).2 = [MsgInputNotFound] ∧
   output_file (run w Missing out).2 = out ∧
   http_log (run w Missing out).2 = []) ∧
  ((run w Unreadable out).1 = Raise ReadError ∧
   console (run w Unreadable out).2 = [MsgReading] ∧
   output_file (run w Unreadable out).2 = out ∧
   http_log (run w Unreadable out).2 = []).
Proof. done. Qed.

Lemma idle_refl (m : machine) : idle m m.
Proof. done. Qed.

Lemma idle_trans (m1 m2 m3 : machine) : idle m1 m2 → idle m2 m3 → idle m1 m3.
Proof. intros (? & ? & ?) (? & ? & ?). unfold idle. split_and!; congruence. Qed.

Lemma process_idle (w : world) (m : machine) :
  (∀ it m', it ∈ iterrows (df m) → df m' = df m →
            idle m' (loop_body w (length (rows (df m))) it m').2) →
  idle m (process w m).2.
Proof.
  intros Hbody. rewrite process_eq. set (m0 := with_console _ m).
  pose proof (guarded_spec (run_loop w (length (rows (df m)))) m0)
    as (_ & Hdf & _ & Hf & Hh).
  unfold idle. rewrite Hdf, Hf, Hh, run_loop_eq.
  change (df m0) with (df m).
  assert (df m0 = df m) as H0 by done.
  change (df m) with (df m0) at 3. change (fetch_log m) with (fetch_log m0).
  change (http_log m) with (http_log m0).
  revert H0. generalize m0. clear m0 Hdf Hf Hh.
  induction (iterrows (df m)) as [|x l IH]; intros m0 H0; simpl; [done|].
  unfold mbind, M_bind.
  pose proof (Hbody x m0 ltac:(left) H0) as Hx.
  destruct (loop_body w _ x m0) as [[[]|e] m1]; simpl in Hx; [|done].
  destruct Hx as (Hd1 & Hf1 & Hh1).
  rewrite <- Hd1, <- Hf1, <- Hh1.
  apply IH.
  - intros it m' Hin. apply Hbody. by right.
  - congruence.
Qed.

(** X10.  An input without a [Link] column, or without a [Title] column
    (which only the progress line reads), is never fetched for: the run
    makes no call and no request and ends with the frame as it was
    loaded. *)
Theorem no_fetch_without_link_or_title (w : world) (m : machine) :
  has_column "Link" (df m) = false ∨ has_column "Title" (df m) = false →
  df (process w m).2 = df m ∧
  fetch_log (process w m).2 = fetch_log m ∧
  http_log (process w m).2 = http_log m ∧
  output_file (process w m).2 = Csv (df m).
Proof.
  intros Hcol.
  assert (idle m (process w m).2) as (Hdf & Hf & Hh).
  { apply process_idle. intros [i row] m' _ Hdf'. rewrite loop_body_eq, Hdf'.
    destruct (negb (has_column "Abstract" _)); [done|].
    destruct (has_abstract _); [done|].
    destruct (has_column "Link" (df m)); [|done]. simpl.
    destruct (unusable _); [done|].
    destruct Hcol as [? | ->]; done. }
  destruct (process_saved w m) as [_ Hout]. rewrite Hout, Hdf. done.
Qed.

Lemma no_fetch_without_link_or_title_witness :
  df (process Sample.calm (Sample.start (init_Abstract Sample.untitled) Missing)).2
    = init_Abstract Sample.untitled ∧
  fetch_log (process Sample.calm
               (Sample.start (init_Abstract Sample.untitled) Missing)).2 = [] ∧
  http_log (process Sample.calm
              (Sample.start (init_Abstract Sample.untitled) Missing)).2 = [] ∧
  output_file (process Sample.calm
                 (Sample.start (init_Abstract Sample.untitled) Missing)).2
    = Csv (init_Abstract Sample.untitled).
Proof.
  apply (no_fetch_without_link_or_title Sample.calm
           (Sample.start (init_Abstract Sample.untitled) Missing)).
  right. reflexivity.
Defined.

(** X11.  When every record has an abstract or lacks a usable link there is
    nothing to do: the run makes no call and no request and stores the
    frame unchanged. *)
Theorem settled_corpus_makes_no_request (w : world) (m : machine) :
  Forall (fun r => has_abstract (Abstract r) = true ∨ unusable (Link r) = true)
         (rows (df m)) →
  df (process w m).2 = df m ∧
  fetch_log (process w m).2 = fetch_log m ∧
  http_log (process w m).2 = http_log m ∧
  output_file (process w m).2 = Csv (df m).
Proof.
  intros Hall.
  assert (idle m (process w m).2) as (Hdf & Hf & Hh).
  { apply process_idle. intros [i row] m' Hin%elem_of_iterrows _.
    rewrite Forall_lookup in Hall. specialize (Hall i row Hin). simpl in Hall.
    rewrite loop_body_eq.
    destruct (negb (has_column "Abstract" _)); [done|].
    destruct (has_abstract _); [done|].
    destruct (negb (has_column "Link" _)); [done|].
    destruct (unusable _); [done|].
    by destruct Hall. }
  destruct (process_saved w m) as [_ Hout]. rewrite Hout, Hdf. done.
Qed.

Lemma settled_corpus_makes_no_request_witness :
  df (process Sample.calm (Sample.start Sample.settled Missing)).2 = Sample.settled ∧
  fetch_log (process Sample.calm (Sample.start Sample.settled Missing)).2 = [] ∧
  http_log (process Sample.calm (Sample.start Sample.settled Missing)).2 = [] ∧
  output_file (process Sample.calm (Sample.start Sample.settled Missing)).2
    = Csv Sample.settled.
Proof.
  apply (settled_corpus_makes_no_request Sample.calm
           (Sample.start Sample.settled Missing)).
  constructor; [left; reflexivity|].
  constructor; [right; reflexivity|].
  constructor; [right; reflexivity|].
  constructor.
Defined.

(** ** What the merge keeps *)

(** X12.  Whatever is stored under [OUTPUT_FILE], loading and merging gives
    a frame with the records of the input, in their order and with their
    Year, Title, Authors and Link: rows of the checkpoint that are not in
    the input are not added, and none of the input is dropped.  An abstract
    that the input itself carries is never erased (the checkpoint's takes
    its place when it has one for the link). *)
Theorem merge_keeps_the_records (f : frame) (out : file) :
  metadata <$> rows (df (load_and_merge (Csv f) (boot out)).2) = metadata <$> rows f ∧
  ∀ j c r',
    has_column "Abstract" f = true →
    rows f !! j = Some c → Abstract c ≠ NA →
    rows (df (load_and_merge (Csv f) (boot out)).2) !! j = Some r' →
    Abstract r' ≠ NA.
Proof.
  destruct (load_and_merge_spec f (boot out)) as (_ & Hdf & _).
  change (output_file (boot out)) with out in Hdf. rewrite Hdf. split.
  - apply merged_metadata.
  - intros j c r' Ha Hj Hc Hr'.
    assert (rows (init_Abstract f) !! j = Some c) as H0.
    { unfold init_Abstract. by rewrite Ha. }
    destruct (merged_lookup f out j c H0) as (r1 & H1 & Hr1).
    assert (r1 = r') as -> by congruence.
    by destruct Hr1 as [->|(_ & ? & _)].
Qed.

(** X13.  A record whose link the checkpoint does not resolve comes out of
    the merge as it was loaded: this holds when no checkpoint record with
    that link has both a link and an abstract. *)
Theorem merge_leaves_unmatched_records (f g : frame) (j : nat) (r0 : paper) :
  rows (init_Abstract f) !! j = Some r0 →
  (∀ r, r ∈ rows g → Link r = Link r0 → Link r = NA ∨ Abstract r = NA) →
  rows (df (load_and_merge (Csv f) (boot (Csv g))).2) !! j = Some r0.
Proof.
  intros H0 Hno.
  destruct (load_and_merge_spec f (boot (Csv g))) as (_ & Hdf & _).
  change (output_file (boot (Csv g))) with (Csv g) in Hdf. rewrite Hdf.
  unfold merged. destruct (_ && _); [|done]. simpl.
  rewrite list_lookup_fmap, H0. simpl. f_equal.
  unfold merge_row. destruct (existing_map g !! Link r0) as [v|] eqn:Hv; [|done].
  apply existing_map_Some in Hv as (r & Hr & Hl & Ha & Hk & Hv).
  destruct (Hno r Hr Hl) as [?|?]; congruence.
Qed.

Lemma merge_leaves_unmatched_records_witness :
  rows (df (load_and_merge (Csv Sample.abc) (boot (Csv Sample.abc_checkpoint))).2) !! 2
  = Some (Sample.row_of 3).
Proof.
  apply (merge_leaves_unmatched_records Sample.abc Sample.abc_checkpoint 2
           (Sample.row_of 3)).
  - reflexivity.
  - intros r Hr Hl.
    apply elem_of_cons in Hr as [->|Hr]; [discriminate Hl|].
    apply elem_of_cons in Hr as [->|Hr]; [discriminate Hl|].
    apply elem_of_cons in Hr as [->|Hr]; [by right|].
    by apply elem_of_nil in Hr.
Defined.

Lemma merged_copies (f ckpt : frame) (r c : paper) (j : nat) :
  has_column "Link" f = true →
  has_column "Abstract" ckpt = true → has_column "Link" ckpt = true →
  one_abstract_per_link (rows ckpt) →
  r ∈ rows ckpt → Abstract r ≠ NA → Link r ≠ NA →
  rows f !! j = Some c → Link c = Link r →
  rows (merged f (Csv ckpt)) !! j = Some (set_Abstract (Abstract r) c).
Proof.
  intros Hf Ha Hl Hone Hr Hres Hna Hj Heq.
  rewrite (merged_usable f ckpt Hf Ha Hl). simpl.
  destruct (init_Abstract_lookup f j c Hj) as [a Hj'].
  rewrite list_lookup_fmap, Hj'. simpl. f_equal.
  assert (r ∈ dropna (rows ckpt)) as Hin by (by apply elem_of_dropna).
  pose proof (existing_map_consistent ckpt r Hone Hin) as Hmap.
  unfold merge_row. simpl. by rewrite Heq, Hmap.
Qed.

(** X14.  Work recorded in the checkpoint is not lost and not redone: with
    an unambiguous checkpoint, a record whose link the checkpoint has
    resolved ends the run, in the frame and in the stored table, with the
    checkpoint's abstract, and [get_abstract] is not called for it,
    whatever the network does and however the run ends. *)
Theorem checkpoint_progress_survives_the_run (w : world) (f ckpt : frame)
    (r c : paper) (j : nat) :
  has_column "Link" f = true →
  has_column "Abstract" ckpt = true →
  has_column "Link" ckpt = true →
  one_abstract_per_link (rows ckpt) →
  r ∈ rows ckpt → has_abstract (Abstract r) = true → Link r ≠ NA →
  rows f !! j = Some c → Link c = Link r →
  rows (df (run w (Csv f) (Csv ckpt)).2) !! j = Some (set_Abstract (Abstract r) c) ∧
  output_file (run w (Csv f) (Csv ckpt)).2 = Csv (df (run w (Csv f) (Csv ckpt)).2) ∧
  ∀ x, (j, x) ∉ fetch_log (run w (Csv f) (Csv ckpt)).2.
Proof.
  intros Hf Ha Hl Hone Hr Hres Hna Hj Heq. rewrite run_eq.
  destruct (load_and_merge_spec f (boot (Csv ckpt))) as (_ & Hdf & _ & Hlog & _).
  change (output_file (boot (Csv ckpt))) with (Csv ckpt) in Hdf.
  set (m1 := (load_and_merge (Csv f) (boot (Csv ckpt))).2) in *.
  assert (rows (df m1) !! j = Some (set_Abstract (Abstract r) c)) as H1.
  { rewrite Hdf. apply merged_copies; try done. by apply has_abstract_notna. }
  destruct (skipped_row_untouched w m1 j _ H1) as [Hno Hrow].
  - intros x (row & Hin%elem_of_iterrows & _ & Hun & _).
    assert (row = set_Abstract (Abstract r) c) as -> by congruence.
    simpl in Hun. congruence.
  - done.
  - split_and!; [done|apply process_saved|done].
Qed.

Lemma checkpoint_progress_survives_the_run_witness :
  rows (df (run Sample.interrupted_request (Csv Sample.abc)
              (Csv Sample.abc_checkpoint)).2) !! 1
    = Some (set_Abstract (Str "Abstract of B") (Sample.row_of 2)) ∧
  output_file (run Sample.interrupted_request (Csv Sample.abc)
                 (Csv Sample.abc_checkpoint)).2
    = Csv (df (run Sample.interrupted_request (Csv Sample.abc)
                 (Csv Sample.abc_checkpoint)).2) ∧
  ∀ x, (1, x) ∉ fetch_log (run Sample.interrupted_request (Csv Sample.abc)
                             (Csv Sample.abc_checkpoint)).2.
Proof.
  apply (checkpoint_progress_survives_the_run Sample.interrupted_request
           Sample.abc Sample.abc_checkpoint
           (set_Abstract (Str "Abstract of B") (Sample.row_of 2))
           (Sample.row_of 2) 1).
  - reflexivity.
  - reflexivity.
  - reflexivity.
  - exact (unique_links_one_abstract _ unique_links_abc_checkpoint).
  - apply list_elem_of_further, list_elem_of_here.
  - reflexivity.
  - discriminate.
  - reflexivity.
  - reflexivity.
Defined.

Lemma merge_keeps_the_records_witness :
  metadata <$> rows (df (load_and_merge (Csv Sample.abc_checkpoint)
                           (boot (Csv Sample.settled))).2)
    = metadata <$> rows Sample.abc_checkpoint ∧
  Abstract (set_Abstract (Str "Abstract of A") (Sample.row_of 1)) ≠ NA.
Proof.
  destruct (merge_keeps_the_records Sample.abc_checkpoint (Csv Sample.settled))
    as [H1 H2].
  split; [exact H1|].
  apply (H2 0 (set_Abstract (Str "Abstract of A") (Sample.row_of 1))).
  - reflexivity.
  - reflexivity.
  - discriminate.
  - vm_compute. reflexivity.
Defined.

(** ** A page with nothing to find *)

Lemma find_all_false {A : Type} (p : A → bool) (l : list A) :
  Forall (fun x => p x = false) l → List.find p l = None.
Proof.
  induction 1 as [|x l Hx _ IH]; simpl; [done|]. by rewrite Hx.
Qed.

(** X15.  A page that has no [citation_abstract] meta tag, no h2, h3 or h4
    heading and no element whose classes include "abstract" yields [None]
    after the one request, without an exception. *)
Theorem page_without_markers_yields_none (w : world) (u : string) (m : machine)
    (soup : list Bs4.node) :
  skipped_url u = false →
  http w (ticks m) u = Response 200 soup →
  Forall (fun e =>
            (Bs4.el_name e = "meta" →
             Bs4.get "name" (Bs4.el_attrs e) ≠ Some "citation_abstract") ∧
            Bs4.in_names ["h3"; "h4"; "h2"] (Bs4.el_name e) = false ∧
            (∀ v, Bs4.get "class" (Bs4.el_attrs e) = Some v →
                  "abstract" ∉ Py.split v))
         (Bs4.descendants soup []) →
  get_abstract w (Str u) m = (Ok None, with_request u m).
Proof.
  intros Hs Hh Hall. rewrite (get_abstract_200 w u m soup Hs Hh). f_equal. f_equal.
  unfold strategy1, strategy2, strategy3, Bs4.find_attr, Bs4.find_string,
    Bs4.find_class.
  rewrite !find_all_false; [done|..].
  - eapply Forall_impl; [exact Hall|]. intros e (_ & _ & Hc). cbv beta.
    destruct (Bs4.get "class" (Bs4.el_attrs e)) as [v|]; [|done].
    specialize (Hc v eq_refl).
    apply Bool.not_true_is_false. intros (x & Hx & Heq)%existsb_exists.
    apply String.eqb_eq in Heq as <-. by apply Hc, list_elem_of_In.
  - eapply Forall_impl; [exact Hall|]. intros e (_ & Hn & _). cbv beta.
    by rewrite Hn.
  - eapply Forall_impl; [exact Hall|]. intros e (Hmeta & _ & _). cbv beta.
    destruct (String.eqb (Bs4.el_name e) "meta") eqn:Hname; [|done].
    rewrite Bool.andb_true_l.
    apply String.eqb_eq in Hname. specialize (Hmeta Hname).
    destruct (Bs4.get "name" (Bs4.el_attrs e)) as [v|]; [|done].
    apply Bool.not_true_is_false. intros Heq. apply String.eqb_eq in Heq as ->.
    done.
Qed.

Lemma page_without_markers_yields_none_witness :
  get_abstract {| http := fun _ _ =>
                    Response 200 [Bs4.Tag "body" []
                                    [Bs4.Tag "p" [("class", "lead intro")]
                                       [Bs4.NavigableString "Nothing here."]]];
                  sleep_interrupted := fun _ => false |}
    (Str (Sample.link_of 1)) (boot Missing)
  = (Ok None, with_request (Sample.link_of 1) (boot Missing)).
Proof.
  apply (page_without_markers_yields_none _ (Sample.link_of 1) (boot Missing)
           [Bs4.Tag "body" []
              [Bs4.Tag "p" [("class", "lead intro")]
                 [Bs4.NavigableString "Nothing here."]]]).
  - reflexivity.
  - reflexivity.
  - simpl. constructor; [|constructor; [|constructor]].
    + split_and!; [discriminate|reflexivity|discriminate].
    + split_and!; [discriminate|reflexivity|].
      intros v [= <-]. vm_compute. intros H.
      apply elem_of_cons in H as [H|H]; [discriminate H|].
      apply elem_of_cons in H as [H|H]; [discriminate H|].
      by apply elem_of_nil in H.
Defined.

(** ** The progress line *)

Lemma length_replace_newlines (s : string) :
  String.length (Py.replace_newlines s) = String.length s.
Proof. induction s as [|c s IH]; simpl; [done|]. by rewrite IH. Qed.

Lemma length_slice_to (n : nat) (s : string) :
  String.length (Py.slice_to n s) ≤ n.
Proof.
  unfold Py.slice_to. revert s. induction n as [|n IH]; intros [|c s]; simpl;
    try lia.
  specialize (IH s). lia.
Qed.

Lemma length_append (s1 s2 : string) :
  String.length (s1 +:+ s2) = String.length s1 + String.length s2.
Proof. induction s1 as [|c s1 IH]; simpl; [done|]. by rewrite IH. Qed.

Lemma replace_newlines_clean (s : string) (i : nat) :
  String.get i (Py.replace_newlines s) ≠ Some "010"%char.
Proof.
  revert i. induction s as [|c s IH]; intros i; simpl; [done|].
  destruct i as [|i]; [|apply IH].
  destruct (Ascii.eqb c "010") eqn:Hc; [done|].
  apply Ascii.eqb_neq in Hc. congruence.
Qed.

Lemma get_append_clean (s1 s2 : string) :
  (∀ i, String.get i s1 ≠ Some "010"%char) →
  (∀ i, String.get i s2 ≠ Some "010"%char) →
  ∀ i, String.get i (s1 +:+ s2) ≠ Some "010"%char.
Proof.
  intros H1 H2. induction s1 as [|c s1 IH]; intros i; simpl; [apply H2|].
  destruct i as [|i].
  - apply (H1 0).
  - apply IH. intros k. apply (H1 (S k)).
Qed.

(** X16.  The preview printed for a found abstract is one short line: at
    most 103 characters, none of them a line feed, and the whole abstract
    (line feeds apart) when it has at most 100 characters. *)
Theorem preview_is_one_short_line (abstract : string) :
  String.length (preview abstract) ≤ 103 ∧
  (∀ i, String.get i (preview abstract) ≠ Some "010"%char) ∧
  (String.length abstract ≤ 100 →
   String.length (preview abstract) = String.length abstract).
Proof.
  unfold preview. destruct (100 <? String.length abstract) eqn:Hlen.
  - apply Nat.ltb_lt in Hlen. split_and!.
    + rewrite length_append, length_replace_newlines. simpl.
      pose proof (length_slice_to 100 abstract). lia.
    + apply get_append_clean; [apply replace_newlines_clean|].
      intros [|[|[|[|i]]]]; simpl; done.
    + lia.
  - apply Nat.ltb_ge in Hlen. split_and!.
    + rewrite length_replace_newlines. lia.
    + apply replace_newlines_clean.
    + intros _. apply length_replace_newlines.
Qed.

(** ** Interrupting and resuming *)











